(** * Mflux_Pro.py: value holders and loader nodes of the Mflux ComfyUI plugin

    A shallow embedding of [Mflux_Pro.py].  Python values that the code
    inspects dynamically ([isinstance], comparison with a literal, [float])
    are values of [pyval]; exceptions are the [Raise] case of [res]; the
    keyword dictionary of [lora_stacker] is a [gmap]; floats are IEEE 754
    numbers in the sense of [SpecFloat]; the functions of the host
    ([folder_paths]) and of the image libraries are parameters of the
    sections that use them. *)

From Stdlib Require Import ZArith List String Ascii Bool Lia.
From Stdlib Require Import DecimalString SpecFloat.
From stdpp Require Import gmap strings sorting.

Local Open Scope Z_scope.
Local Open Scope string_scope.
Local Open Scope list_scope.

(** ** Python values *)

Module Py.

(** The values the nodes receive through their sockets. *)
Inductive pyval : Type :=
  | PyNone
  | PyBool (b : bool)
  | PyInt (z : Z)
  | PyFloat (f : spec_float)
  | PyStr (s : string).

(** The built-in classes involved, with [bool] a subclass of [int]. *)
Inductive pyclass : Type :=
  | NoneType_ | bool_ | int_ | float_ | str_ | object_.

Definition pyclass_eqb (c d : pyclass) : bool :=
  match c, d with
  | NoneType_, NoneType_ | bool_, bool_ | int_, int_
  | float_, float_ | str_, str_ | object_, object_ => true
  | _, _ => false
  end.

Definition type_of (v : pyval) : pyclass :=
  match v with
  | PyNone => NoneType_
  | PyBool _ => bool_
  | PyInt _ => int_
  | PyFloat _ => float_
  | PyStr _ => str_
  end.

(** Method resolution order of each class: [bool.__mro__] is
    [(bool, int, object)]. *)
Definition mro (c : pyclass) : list pyclass :=
  match c with
  | bool_ => [bool_; int_; object_]
  | object_ => [object_]
  | c => [c; object_]
  end.

(** [isinstance(v, (c1, ..., cn))]. *)
Definition isinstance (v : pyval) (classes : list pyclass) : bool :=
  existsb (fun c => existsb (pyclass_eqb c) (mro (type_of v))) classes.

(** [v == s] for a [str] literal [s]: only a [str] can be equal to it. *)
Definition eq_str (v : pyval) (s : string) : bool :=
  match v with
  | PyStr t => String.eqb t s
  | _ => false
  end.

(** Truth value of a list: a list is true when it is not empty. *)
Definition truthy {A : Type} (l : list A) : bool :=
  match l with
  | [] => false
  | _ :: _ => true
  end.

(** Exceptions. *)
Inductive exn : Type :=
  | TypeError
  | ValueError
  | OverflowError
  | AttributeError
  | OSError
  | RuntimeError.

Inductive res (A : Type) : Type :=
  | Ok (a : A)
  | Raise (e : exn).
Arguments Ok {A} a.
Arguments Raise {A} e.

Definition bind {A B : Type} (r : res A) (k : A -> res B) : res B :=
  match r with
  | Ok a => k a
  | Raise e => Raise e
  end.

End Py.
Export Py.

Notation "'do' x <- r ; k" := (bind r (fun x => k))
  (at level 10, x name, r at level 100, k at level 200,
   format "'[v' 'do'  x  <-  r ; '/' k ']'").

(** A list comprehension whose element expression can raise: the pieces are
    evaluated from left to right and the first exception ends it. *)
Fixpoint comprehension {A B : Type} (f : A -> res (list B)) (l : list A)
  : res (list B) :=
  match l with
  | [] => Ok []
  | a :: l' =>
      do here <- f a ;
      do rest <- comprehension f l' ;
      Ok (here ++ rest)
  end.

(** ** [os.path.join] (posixpath) *)

Module PosixPath.

Definition sep : ascii := "/"%char.

Definition startswith_sep (b : string) : bool :=
  match b with
  | String c _ => Ascii.eqb c sep
  | EmptyString => false
  end.

Fixpoint endswith_sep (p : string) : bool :=
  match p with
  | EmptyString => false
  | String c EmptyString => Ascii.eqb c sep
  | String _ r => endswith_sep r
  end.

(** One turn of the loop of [posixpath.join]: an absolute component
    replaces what was joined so far, a separator is inserted unless the
    path is empty or already ends with one. *)
Definition join_step (path b : string) : string :=
  if startswith_sep b then b
  else if String.eqb path "" || endswith_sep path then String.append path b
  else String.append path (String sep b).

Definition join_str (a : string) (p : list string) : string :=
  fold_left join_step p a.

(** The components must all be [str]; anything else is a [TypeError]. *)
Fixpoint as_strs (p : list pyval) : res (list string) :=
  match p with
  | [] => Ok []
  | PyStr s :: p' => do l <- as_strs p' ; Ok (s :: l)
  | _ :: _ => Raise TypeError
  end.

Definition join (a : string) (p : list pyval) : res string :=
  do l <- as_strs p ; Ok (join_str a l).

End PosixPath.

(** ** LoRA stack holder and LoRA loader node *)

Record MfluxLorasPipeline : Type := {
  lora_paths : list string;
  lora_scales : list pyval
}.

(** What can arrive at the optional socket [Loras]. *)
Inductive loras_socket : Type :=
  | LorasNone
  | LorasStack (s : MfluxLorasPipeline)
  | LorasForeign (v : pyval).

Module MfluxLorasLoader.

(** [kwargs.get(k)]: [None] for a missing key. *)
Definition kwargs_get (kwargs : gmap string pyval) (k : string) : pyval :=
  match kwargs !! k with
  | Some v => v
  | None => PyNone
  end.

(** The f-strings [f"Lora{i}"] and [f"scale{i}"]. *)
Definition fstr (prefix : string) (i : nat) : string :=
  String.append prefix (NilEmpty.string_of_uint (Nat.to_uint i)).

Section Stacker.

(** [folder_paths.models_dir] *)
Variable models_dir : string.

(** One slot of the comprehension: its condition, then its element. *)
Definition slot (kwargs : gmap string pyval) (i : nat)
  : res (list (string * pyval)) :=
  if negb (eq_str (kwargs_get kwargs (fstr "Lora" i)) "None") then
    do path <- PosixPath.join models_dir
              [PyStr "loras"; kwargs_get kwargs (fstr "Lora" i)] ;
    Ok [(path, kwargs_get kwargs (fstr "scale" i))]
  else Ok [].

(** [for i in range(1, 4)] *)
Definition local_models (kwargs : gmap string pyval)
  : res (list (string * pyval)) :=
  comprehension (slot kwargs) [1%nat; 2%nat; 3%nat].

(** The [extend] guarded by the two tests on [Loras]. *)
Definition extend_upstream (lora_models : list (string * pyval))
    (Loras : loras_socket) : list (string * pyval) :=
  match Loras with
  | LorasStack s =>
      if truthy (lora_paths s) && truthy (lora_scales s)
      then lora_models ++ combine (lora_paths s) (lora_scales s)
      else lora_models
  | LorasNone | LorasForeign _ => lora_models
  end.

(** [lora_models] as it stands before the final split. *)
Definition merged_models (Loras : loras_socket)
    (kwargs : gmap string pyval) : res (list (string * pyval)) :=
  do lora_models <- local_models kwargs ;
  Ok (extend_upstream lora_models Loras).

(** The final split: [zip] applied to the unpacked [lora_models] when the
    list is not empty, two empty lists otherwise. *)
Definition unzip_models (lora_models : list (string * pyval))
  : MfluxLorasPipeline :=
  if truthy lora_models
  then {| lora_paths := map fst lora_models;
          lora_scales := map snd lora_models |}
  else {| lora_paths := []; lora_scales := [] |}.

(** The node function; its 1-tuple result is returned unwrapped. *)
Definition lora_stacker (Loras : loras_socket)
    (kwargs : gmap string pyval) : res MfluxLorasPipeline :=
  do lora_models <- merged_models Loras kwargs ;
  Ok (unzip_models lora_models).

End Stacker.

End MfluxLorasLoader.

(** ** Floating point: [float], [round] and [float32] division *)

Module Float.

(** Python floats are binary64, NumPy's [float32] is binary32. *)
Definition prec64 : Z := 53.
Definition emax64 : Z := 1024.
Definition prec32 : Z := 24.
Definition emax32 : Z := 128.

(** The binary64 number nearest to an integer (ties to even). *)
Definition of_Z (z : Z) : spec_float := binary_normalize prec64 emax64 z 0 false.

(** The binary64 number nearest to the quotient of two positive integers:
    the value of a decimal literal and of a decimal string read back. *)
Definition of_ratio (s : bool) (n d : positive) : spec_float :=
  SFdiv prec64 emax64 (S754_finite s n 0) (S754_finite false d 0).

(** The literal [n / 10^places], as in [0.401 = literal 401 3]. *)
Definition literal (n : positive) (places : nat) : spec_float :=
  of_ratio false n (Z.to_pos (10 ^ Z.of_nat places)).

Section Conversion.

(** [float] applied to a [str]: the reader of the interpreter. *)
Variable float_of_str : string -> res spec_float.

(** [float(v)] *)
Definition float (v : pyval) : res spec_float :=
  match v with
  | PyFloat f => Ok f
  | PyBool b => Ok (of_Z (if b then 1 else 0))
  | PyInt z =>
      match of_Z z with
      | S754_infinity _ => Raise OverflowError
      | f => Ok f
      end
  | PyStr s => float_of_str s
  | PyNone => Raise TypeError
  end.

End Conversion.

(** The integer nearest to [m * 2^e], ties to the even one. *)
Definition nearest_even (m e : Z) : Z :=
  match e with
  | Zneg p =>
      let d := 2 ^ Zpos p in
      let q := m / d in
      match (2 * (m mod d) ?= d) with
      | Lt => q
      | Gt => q + 1
      | Eq => if Z.even q then q else q + 1
      end
  | _ => m * 2 ^ e
  end.

(** [round(x, 2)]: the exact value of [x] is rounded to two decimals,
    ties to even, and the decimal is read back as a float; zeros,
    infinities and NaN round to themselves and the sign is kept. *)
Definition round2 (x : spec_float) : spec_float :=
  match x with
  | S754_finite s m e =>
      match nearest_even (100 * Zpos m) e with
      | Zpos k => of_ratio s k 100
      | _ => S754_zero s
      end
  | _ => x
  end.

(** [astype(np.float32)] on an integer pixel value. *)
Definition f32_of_Z (z : Z) : spec_float :=
  binary_normalize prec32 emax32 z 0 false.

(** [x / 255.0] in [float32]. *)
Definition div255 (x : spec_float) : spec_float :=
  SFdiv prec32 emax32 x (f32_of_Z 255).

End Float.

(** ** Image reference holder and image loader node *)

(** What a validation hook returns: [True] or a message. *)
Inductive verdict : Type :=
  | VTrue
  | VMessage (msg : string).

Record MfluxImagePipeline : Type := {
  image_path : option string;
  strength : pyval
}.

Module ImagePipeline.

Definition clear_cache (self : MfluxImagePipeline) : MfluxImagePipeline :=
  {| image_path := None; strength := PyNone |}.

End ImagePipeline.

Module LorasPipeline.

Definition clear_cache (self : MfluxLorasPipeline) : MfluxLorasPipeline :=
  {| lora_paths := []; lora_scales := [] |}.

End LorasPipeline.

Module MfluxLoadImage.

Section Node.

(** [folder_paths.get_annotated_filepath] and
    [folder_paths.exists_annotated_filepath] of the host. *)
Variable get_annotated_filepath : string -> string.
Variable exists_annotated_filepath : string -> bool.
(** [Image.open(path).size] *)
Variable image_size : string -> res (Z * Z).
(** [hash] on [str] *)
Variable hash : string -> Z.
Variable float_of_str : string -> res spec_float.

Definition load_and_process (image : string) (strength : pyval)
  : res (MfluxImagePipeline * Z * Z) :=
  let image_path := get_annotated_filepath image in
  do size <- image_size image_path ;
  Ok ({| image_path := Some image_path; strength := strength |},
      fst size, snd size).

Definition IS_CHANGED (image : string) (strength : pyval)
  : res (Z * spec_float) :=
  let image_hash := hash image in
  do x <- Float.float float_of_str strength ;
  let strength_rounded := Float.round2 x in
  Ok (image_hash, strength_rounded).

Definition VALIDATE_INPUTS (image : string) (strength : pyval) : verdict :=
  if negb (exists_annotated_filepath image) then
    VMessage (String.append "Invalid image file: " image)
  else if negb (isinstance strength [int_; float_]) then
    VMessage "Strength must be a number"
  else VTrue.

End Node.

End MfluxLoadImage.

(** ** ControlNet configuration holder and ControlNet loader node *)

Record MfluxControlNetPipeline : Type := {
  model_selection : option string;
  save_canny : pyval
}.

Module ControlNetPipeline.

Definition clear_cache (self : MfluxControlNetPipeline)
  : MfluxControlNetPipeline :=
  {| model_selection := None; save_canny := PyBool false |}.

End ControlNetPipeline.

(** An array of pixel values as [np.array] gives it, and an array or tensor
    of [float32]: a shape and the elements in row-major order. *)
Record ndarray : Type := {
  nd_shape : list nat;
  nd_data : list Z
}.

Record tensor : Type := {
  t_shape : list nat;
  t_data : list spec_float
}.

Module MfluxControlNetLoader.

(** [np.array(...).astype(np.float32) / 255.0] *)
Definition normalize (a : ndarray) : tensor :=
  {| t_shape := nd_shape a;
     t_data := map (fun p => Float.div255 (Float.f32_of_Z p)) (nd_data a) |}.

Definition dim (t : tensor) : nat := length (t_shape t).

Definition unsqueeze0 (t : tensor) : tensor :=
  {| t_shape := 1%nat :: t_shape t; t_data := t_data t |}.

Definition available_models : list string :=
  ["InstantX/FLUX.1-dev-Controlnet-Canny"].

Section Node.

(** PIL images, [Image.open], [ControlnetUtil.preprocess_canny] and
    [np.array] on an image. *)
Variable PILImage : Type.
Variable Image_open : string -> res PILImage.
Variable preprocess_canny : PILImage -> res PILImage.
Variable np_array : PILImage -> ndarray.
Variable exists_annotated_filepath : string -> bool.

(** [Image.open] on what the attribute holds: [None] has no [read]. *)
Definition open_path (image_path : option string) : res PILImage :=
  match image_path with
  | Some p => Image_open p
  | None => Raise AttributeError
  end.

Definition load_and_select (model_selection : string) (save_canny : pyval)
    (image : option MfluxImagePipeline)
  : res (MfluxControlNetPipeline * tensor) :=
  let image_path :=
    match image with Some i => image_path i | None => None end in
  let strength :=
    match image with Some i => strength i | None => PyNone end in
  do img <- open_path image_path ;
  do canny_image <- preprocess_canny img ;
  let canny_image_np := normalize (np_array canny_image) in
  let canny_tensor := canny_image_np in
  let canny_tensor :=
    if Nat.eqb (dim canny_tensor) 3 then unsqueeze0 canny_tensor
    else canny_tensor in
  Ok ({| model_selection := Some model_selection;
         save_canny := save_canny |}, canny_tensor).

(** The host's check applies [endswith] to its argument, which [None]
    does not have. *)
Definition exists_path (image_path : option string) : res bool :=
  match image_path with
  | Some p => Ok (exists_annotated_filepath p)
  | None => Raise AttributeError
  end.

Definition message_path (image_path : option string) : string :=
  match image_path with
  | Some p => p
  | None => "None"
  end.

(** The checks on the model and on the flag. *)
Definition validate_selection (model_selection : string)
    (save_canny : pyval) : verdict :=
  if negb (existsb (String.eqb model_selection) available_models) then
    VMessage (String.append "Invalid model selection: " model_selection)
  else if negb (isinstance save_canny [bool_]) then
    VMessage "save_canny must be a boolean value"
  else VTrue.

Definition VALIDATE_INPUTS (image : option MfluxImagePipeline)
    (model_selection : string) (save_canny : pyval) : res verdict :=
  match image with
  | Some i =>
      do found <- exists_path (image_path i) ;
      if negb found then
        Ok (VMessage (String.append "Invalid image file: "
                        (message_path (image_path i))))
      else Ok (validate_selection model_selection save_canny)
  | None => Ok (validate_selection model_selection save_canny)
  end.

End Node.

End MfluxControlNetLoader.

(** ** The contract of the LoRA loader, in the words of the specification *)

Module LoraSpec.

(** The models directory, the subpath [loras] and the selection, joined. *)
Definition resolved_path (models_dir selection : string) : string :=
  PosixPath.join_str models_dir ["loras"; selection].

(** One [(resolved_path, scale)] entry for each slot whose selection is not
    [None], in slot order. *)
Definition local_entries (models_dir : string)
    (slots : list (string * pyval)) : list (string * pyval) :=
  map (fun sl => (resolved_path models_dir (fst sl), snd sl))
      (List.filter (fun sl => negb (String.eqb (fst sl) "None")) slots).

Definition upstream_paths (Loras : loras_socket) : list string :=
  match Loras with
  | LorasStack s => lora_paths s
  | LorasNone | LorasForeign _ => []
  end.

Definition upstream_scales (Loras : loras_socket) : list pyval :=
  match Loras with
  | LorasStack s => lora_scales s
  | LorasNone | LorasForeign _ => []
  end.

(** The invariant of a stack: parallel sequences of the same length. *)
Definition aligned (s : MfluxLorasPipeline) : Prop :=
  length (lora_paths s) = length (lora_scales s).

Definition upstream_aligned (Loras : loras_socket) : Prop :=
  match Loras with
  | LorasStack s => aligned s
  | LorasNone | LorasForeign _ => True
  end.

(** Local entries first, then the upstream entries, split in two. *)
Definition stacked (models_dir : string) (slots : list (string * pyval))
    (Loras : loras_socket) : MfluxLorasPipeline :=
  {| lora_paths :=
       map fst (local_entries models_dir slots) ++ upstream_paths Loras;
     lora_scales :=
       map snd (local_entries models_dir slots) ++ upstream_scales Loras |}.

(** The three selections are present in the keyword arguments. *)
Definition selections (kwargs : gmap string pyval) (s1 s2 s3 : string)
  : Prop :=
  kwargs !! "Lora1" = Some (PyStr s1) /\
  kwargs !! "Lora2" = Some (PyStr s2) /\
  kwargs !! "Lora3" = Some (PyStr s3).

Definition scales (kwargs : gmap string pyval) (c1 c2 c3 : pyval) : Prop :=
  kwargs !! "scale1" = Some c1 /\
  kwargs !! "scale2" = Some c2 /\
  kwargs !! "scale3" = Some c3.

(** The keyword arguments of a call with the three pairs. *)
Definition kwargs_of (s1 s2 s3 : string) (c1 c2 c3 : pyval)
  : gmap string pyval :=
  <["Lora1" := PyStr s1]> (<["scale1" := c1]>
  (<["Lora2" := PyStr s2]> (<["scale2" := c2]>
  (<["Lora3" := PyStr s3]> (<["scale3" := c3]> ∅))))).

End LoraSpec.


(** ** The contracts of the validation hooks, in the words of the
    specification *)

Module Contract.

(** A numeric value: an [int] or a [float]; Python's [bool] is a kind of
    [int]. *)
Definition numeric (v : pyval) : Prop :=
  match v with
  | PyBool _ | PyInt _ | PyFloat _ => True
  | PyNone | PyStr _ => False
  end.


(** A validation fails when it returns a message instead of [True]. *)
Definition fails (v : verdict) : Prop := exists msg, v = VMessage msg.

(** The model is one of the supported ones. *)
Definition supported (model_selection : string) : Prop :=
  In model_selection MfluxControlNetLoader.available_models.



End Contract.

(** ** A small host, for concrete runs *)

Module Demo.

Definition models_dir : string := "/models".

Definition half : pyval := PyFloat (Float.literal 5 1).
Definition full : pyval := PyFloat (Float.literal 1 0).

Definition upstream : loras_socket :=
  LorasStack {| lora_paths := ["/models/loras/style.safetensors"];
                lora_scales := [half] |}.

Definition kwargs : gmap string pyval :=
  LoraSpec.kwargs_of "a.safetensors" "None" "b.safetensors"
    (PyFloat (Float.literal 8 1)) full half.

Definition kwargs_none : gmap string pyval :=
  LoraSpec.kwargs_of "None" "None" "None" full full full.

(** The input directory holds one image, [cat.png]. *)
Definition exists_annotated_filepath (name : string) : bool :=
  String.eqb name "cat.png".

Definition hash (s : string) : Z := Z.of_nat (String.length s).

Definition float_of_str (s : string) : res spec_float := Raise ValueError.

(** An image is its pixel array; the edge map of [cat.png] is 2 x 2 with
    three channels. *)
Definition edges : ndarray :=
  {| nd_shape := [2%nat; 2%nat; 3%nat];
     nd_data := [0; 0; 0; 255; 255; 255; 255; 255; 255; 0; 0; 0] |}.

Definition Image_open (path : string) : res ndarray :=
  if String.eqb path "cat.png" then Ok edges else Raise OSError.

Definition preprocess_canny (img : ndarray) : res ndarray := Ok img.

Definition np_array (img : ndarray) : ndarray := img.

Definition reference : MfluxImagePipeline :=
  {| image_path := Some "cat.png"; strength := half |}.

End Demo.

(** ** [str] of a value *)

Module Repr.

Definition str_of_bool (b : bool) : string := if b then "True" else "False".

Definition str_of_int (z : Z) : string := NilZero.string_of_int (Z.to_int z).

Section Str.

(** [repr] of a float, the shortest decimal that reads back. *)
Variable repr_float : spec_float -> string.

(** [str(v)] *)
Definition str (v : pyval) : string :=
  match v with
  | PyNone => "None"
  | PyBool b => str_of_bool b
  | PyInt z => str_of_int z
  | PyFloat f => repr_float f
  | PyStr s => s
  end.

End Str.

End Repr.

(** ** The declared inputs and the change key of the other hooks *)

(** A [FLOAT] widget: default, bounds and step. *)
Record float_widget : Type := {
  w_default : spec_float;
  w_min : spec_float;
  w_max : spec_float;
  w_step : spec_float
}.

Module Widget.

(** The float nearest to [k / 100]: what a widget of step 0.01 sends. *)
Definition hundredths (k : Z) : spec_float :=
  match k with
  | Z0 => S754_zero false
  | Zpos p => Float.of_ratio false p 100
  | Zneg p => Float.of_ratio true p 100
  end.

(** The number of hundredths nearest to a float, as [round] finds it. *)
Definition nearest_hundredth (x : spec_float) : Z :=
  match x with
  | S754_finite s m e =>
      let k := Float.nearest_even (100 * Zpos m) e in
      if s then - k else k
  | _ => 0
  end.

(** Two floats are the same datum. *)
Definition same (x y : spec_float) : bool :=
  match x, y with
  | S754_zero s, S754_zero s' => Bool.eqb s s'
  | S754_infinity s, S754_infinity s' => Bool.eqb s s'
  | S754_nan, S754_nan => true
  | S754_finite s m e, S754_finite s' m' e' =>
      Bool.eqb s s' && Pos.eqb m m' && Z.eqb e e'
  | _, _ => false
  end.

(** The values [0, 1, ..., n]. *)
Definition upto (n : nat) : list Z := map Z.of_nat (seq 0 (S n)).

(** The strength widget of the image loader. *)
Definition strength : float_widget :=
  {| w_default := Float.literal 4 1;
     w_min := S754_zero false;
     w_max := Float.literal 1 0;
     w_step := Float.literal 1 2 |}.

End Widget.

Record load_image_inputs : Type := {
  image_choices : list string;
  image_upload : bool;
  strength_widget : float_widget
}.

Module MfluxLoadImageInputs.

(** [sorted] on a list of [str]: ascending in the order of the characters. *)
Definition sorted (l : list string) : list string := merge_sort String.le l.

Section Inputs.

(** [folder_paths.get_input_directory()], [os.listdir] and
    [os.path.isfile]. *)
Variable input_dir : string.
Variable listdir : string -> res (list string).
Variable isfile : string -> bool.

(** The comprehension over the directory listing. *)
Definition files : res (list string) :=
  do names <- listdir input_dir ;
  Ok (List.filter (fun f => isfile (PosixPath.join_str input_dir [f])) names).

Definition INPUT_TYPES : res load_image_inputs :=
  do files <- files ;
  Ok {| image_choices := sorted files;
        image_upload := true;
        strength_widget := Widget.strength |}.

End Inputs.

End MfluxLoadImageInputs.

Record controlnet_inputs : Type := {
  model_choices : list string;
  model_default : string;
  save_canny_default : bool
}.

Module MfluxControlNetLoaderHooks.

Definition controlnet_models : list string :=
  ["InstantX/FLUX.1-dev-Controlnet-Canny"].

Definition INPUT_TYPES : controlnet_inputs :=
  {| model_choices := controlnet_models;
     model_default := "InstantX/FLUX.1-dev-Controlnet-Canny";
     save_canny_default := false |}.

Section Change.

Variable repr_float : spec_float -> string.

(** The three [str] concatenated from left to right; reading the attribute
    of a missing image is an [AttributeError]. *)
Definition IS_CHANGED (image : option MfluxImagePipeline)
    (model_selection : string) (save_canny : pyval) : res string :=
  match image with
  | Some i =>
      Ok (String.append
            (String.append
               (MfluxControlNetLoader.message_path (image_path i))
               model_selection)
            (Repr.str repr_float save_canny))
  | None => Raise AttributeError
  end.

End Change.

End MfluxControlNetLoaderHooks.

(** ** Further notions used to state what the nodes do *)

Module Shape.

Definition is_str (v : pyval) : Prop := exists s, v = PyStr s.

(** The three selections of a call are strings. *)
Definition selections_are_str (kwargs : gmap string pyval) : Prop :=
  is_str (MfluxLorasLoader.kwargs_get kwargs "Lora1") /\
  is_str (MfluxLorasLoader.kwargs_get kwargs "Lora2") /\
  is_str (MfluxLorasLoader.kwargs_get kwargs "Lora3").

(** The upstream entries as [zip] pairs them: as many as the shorter of
    the two sequences. *)
Definition zipped_upstream (Loras : loras_socket) : list (string * pyval) :=
  combine (LoraSpec.upstream_paths Loras) (LoraSpec.upstream_scales Loras).

(** The selections that are not the string [None]. *)
Definition chosen (selections : list string) : list string :=
  List.filter (fun s => negb (String.eqb s "None")) selections.

(** A byte, as a pixel of an 8-bit image. *)
Definition byte (px : Z) : Prop := 0 <= px <= 255.

(** The normalised value of a pixel. *)
Definition normalized (px : Z) : spec_float :=
  Float.div255 (Float.f32_of_Z px).

End Shape.

(** ** More of the small host *)

Module Demo2.

(** An upstream holder whose sequences have different lengths. *)
Definition misaligned : loras_socket :=
  LorasStack {| lora_paths := ["/models/loras/x.safetensors";
                               "/models/loras/y.safetensors"];
                lora_scales := [Demo.half] |}.

Definition kwargs_next : gmap string pyval :=
  LoraSpec.kwargs_of "None" "c.safetensors" "None" Demo.full Demo.half
    Demo.full.

Definition kwargs_absolute : gmap string pyval :=
  LoraSpec.kwargs_of "/tmp/evil.safetensors" "None" "None" Demo.full
    Demo.full Demo.full.



(** The input directory: two images and a folder, listed unsorted. *)
Definition input_dir : string := "/input".

Definition listdir (dir : string) : res (list string) :=
  if String.eqb dir "/input" then Ok ["dog.png"; "masks"; "cat.png"]
  else Raise OSError.

(** The same directory, listed in another order. *)
Definition listdir_other (dir : string) : res (list string) :=
  if String.eqb dir "/input" then Ok ["cat.png"; "masks"; "dog.png"]
  else Raise OSError.

Definition isfile (path : string) : bool :=
  String.eqb path "/input/dog.png" || String.eqb path "/input/cat.png".

Definition get_annotated_filepath (name : string) : string :=
  String.append "/input/" name.

Definition image_size (path : string) : res (Z * Z) :=
  if String.eqb path "/input/cat.png" then Ok (640, 480) else Raise OSError.

Definition repr_float (f : spec_float) : string := "0.5".

End Demo2.

(** ** The host's side of the change key, and the life of a reference *)

Module Host.

(** The host compares the key of a run with the key of the run before by
    [==] on the two tuples: the hashes as integers, the rounded strengths
    as IEEE 754 numbers, so that [0.0 == -0.0] and NaN equals nothing. *)
Definition key_eq (k1 k2 : Z * spec_float) : bool :=
  Z.eqb (fst k1) (fst k2) && SFeqb (snd k1) (snd k2).

(** [hash] returns a machine integer of 64 bits. *)
Definition hash_range (hash : string -> Z) : Prop :=
  forall s, - 2 ^ 63 <= hash s < 2 ^ 63.

(** The identifier made of [n] letters [a]. *)
Fixpoint letters (n : nat) : string :=
  match n with
  | O => ""
  | S n' => String "a" (letters n')
  end.

End Host.

Module Lifecycle.


End Lifecycle.

(** * Properties *)

(** ** Lists and the error monad *)

Section ListFacts.

Context {A B : Type}.

Lemma map_fst_combine (l : list A) (l' : list B) :
  length l = length l' -> map fst (combine l l') = l.
Proof.
  revert l'. induction l as [|a l IH]; intros [|b l'] Hlen;
    simpl in *; try discriminate; [reflexivity|].
  f_equal. apply IH. lia.
Qed.

Lemma map_snd_combine (l : list A) (l' : list B) :
  length l = length l' -> map snd (combine l l') = l'.
Proof.
  revert l'. induction l as [|a l IH]; intros [|b l'] Hlen;
    simpl in *; try discriminate; [reflexivity|].
  f_equal. apply IH. lia.
Qed.

Lemma truthy_false (l : list A) : truthy l = false -> l = [].
Proof. destruct l; [reflexivity | discriminate]. Qed.

Lemma length_fst_snd (l : list (A * B)) :
  length (map fst l) = length (map snd l).
Proof. now rewrite !length_map. Qed.

End ListFacts.

Lemma bind_Ok {A B : Type} (a : A) (k : A -> res B) : bind (Ok a) k = k a.
Proof. reflexivity. Qed.

Lemma bind_inv {A B : Type} (r : res A) (k : A -> res B) (b : B) :
  bind r k = Ok b -> exists a, r = Ok a /\ k a = Ok b.
Proof. destruct r as [a|e]; simpl; [eauto | discriminate]. Qed.

(** ** Paths *)

Section PathFacts.

Import PosixPath.

Lemma endswith_sep_append (a b : string) :
  b <> "" -> endswith_sep (String.append a b) = endswith_sep b.
Proof.
  intros Hb. induction a as [|c a IH]; [reflexivity|].
  simpl. rewrite IH.
  destruct (String.append a b) eqn:Happ; [|reflexivity].
  destruct a; simpl in Happ; [contradiction | discriminate].
Qed.

Lemma append_assoc (a b c : string) :
  String.append (String.append a b) c = String.append a (String.append b c).
Proof.
  induction a as [|x a IH]; [reflexivity|].
  change (String x (String.append (String.append a b) c) =
          String x (String.append a (String.append b c))).
  now rewrite IH.
Qed.

(** For a directory that does not end with a separator and a relative
    selection, the resolved path is [models_dir/loras/selection]. *)
Lemma resolved_path_relative (models_dir selection : string) :
  models_dir <> "" ->
  endswith_sep models_dir = false ->
  startswith_sep selection = false ->
  LoraSpec.resolved_path models_dir selection =
    String.append models_dir (String.append "/loras/" selection).
Proof.
  intros Hne Hend Hstart.
  unfold LoraSpec.resolved_path, join_str. simpl.
  unfold join_step at 2. simpl startswith_sep. cbv iota.
  rewrite Hend. destruct (String.eqb_spec models_dir ""); [contradiction|].
  simpl orb. cbv iota.
  unfold join_step. rewrite Hstart.
  change (String sep "loras") with "/loras".
  rewrite (endswith_sep_append models_dir "/loras") by discriminate.
  destruct (String.eqb_spec (String.append models_dir "/loras") "") as [He|_].
  - destruct models_dir; [contradiction | discriminate He].
  - simpl. rewrite append_assoc. reflexivity.
Qed.

(** An absolute selection replaces the directory. *)
Lemma resolved_path_absolute (models_dir selection : string) :
  startswith_sep selection = true ->
  LoraSpec.resolved_path models_dir selection = selection.
Proof.
  intros Hstart. unfold LoraSpec.resolved_path, join_str. simpl.
  unfold join_step at 1. now rewrite Hstart.
Qed.

End PathFacts.

(** ** LoRA loader *)

Section LoraStackerFacts.

Import MfluxLorasLoader LoraSpec.

Variable models_dir : string.
Implicit Types (kwargs : gmap string pyval) (Loras : loras_socket).

Lemma kwargs_get_Some kwargs k v :
  kwargs !! k = Some v -> kwargs_get kwargs k = v.
Proof. unfold kwargs_get. now intros ->. Qed.

(** A slot whose selection is a string contributes at most one entry. *)
Lemma slot_selection kwargs i s :
  kwargs !! fstr "Lora" i = Some (PyStr s) ->
  slot models_dir kwargs i =
    Ok (local_entries models_dir [(s, kwargs_get kwargs (fstr "scale" i))]).
Proof.
  intros Hs. unfold slot, local_entries.
  rewrite (kwargs_get_Some _ _ _ Hs). simpl.
  destruct (String.eqb s "None"); reflexivity.
Qed.

Lemma local_entries_app l l' :
  local_entries models_dir (l ++ l') =
    local_entries models_dir l ++ local_entries models_dir l'.
Proof. unfold local_entries. now rewrite List.filter_app, map_app. Qed.

Lemma local_models_selections kwargs s1 s2 s3 :
  selections kwargs s1 s2 s3 ->
  local_models models_dir kwargs =
    Ok (local_entries models_dir
          [(s1, kwargs_get kwargs "scale1");
           (s2, kwargs_get kwargs "scale2");
           (s3, kwargs_get kwargs "scale3")]).
Proof.
  intros (H1 & H2 & H3). unfold local_models. simpl comprehension.
  rewrite (slot_selection kwargs 1 s1 H1), (slot_selection kwargs 2 s2 H2),
    (slot_selection kwargs 3 s3 H3).
  rewrite !bind_Ok, app_nil_r.
  change [(s1, kwargs_get kwargs "scale1"); (s2, kwargs_get kwargs "scale2");
          (s3, kwargs_get kwargs "scale3")]
    with ([(s1, kwargs_get kwargs "scale1")] ++
          [(s2, kwargs_get kwargs "scale2")] ++
          [(s3, kwargs_get kwargs "scale3")]).
  now rewrite !local_entries_app.
Qed.

(** Both branches of the final split give the two projections. *)
Lemma unzip_models_split (l : list (string * pyval)) :
  unzip_models l = {| lora_paths := map fst l; lora_scales := map snd l |}.
Proof. destruct l; reflexivity. Qed.

Lemma unzip_models_aligned (l : list (string * pyval)) :
  aligned (unzip_models l).
Proof. rewrite unzip_models_split. apply length_fst_snd. Qed.

(** With an aligned upstream stack the guarded [extend] appends all of its
    entries. *)
Lemma extend_upstream_aligned (l : list (string * pyval)) Loras :
  upstream_aligned Loras ->
  map fst (extend_upstream l Loras) = map fst l ++ upstream_paths Loras /\
  map snd (extend_upstream l Loras) = map snd l ++ upstream_scales Loras.
Proof.
  destruct Loras as [|[paths scs]|v]; simpl;
    [now rewrite !app_nil_r | | now rewrite !app_nil_r].
  unfold aligned; simpl. intros Hlen.
  destruct paths as [|p paths], scs as [|c scs]; simpl in *;
    try discriminate; [now rewrite !app_nil_r|].
  rewrite !map_app. simpl.
  rewrite map_fst_combine, map_snd_combine by lia. now split.
Qed.

Lemma lora_stacker_aligned_upstream kwargs Loras s1 s2 s3 :
  selections kwargs s1 s2 s3 ->
  upstream_aligned Loras ->
  lora_stacker models_dir Loras kwargs =
    Ok (stacked models_dir
          [(s1, kwargs_get kwargs "scale1");
           (s2, kwargs_get kwargs "scale2");
           (s3, kwargs_get kwargs "scale3")] Loras).
Proof.
  intros Hsel Hup. unfold lora_stacker, merged_models.
  rewrite (local_models_selections _ _ _ _ Hsel), !bind_Ok.
  rewrite unzip_models_split. unfold stacked.
  now destruct (extend_upstream_aligned
                  (local_entries models_dir
                     [(s1, kwargs_get kwargs "scale1");
                      (s2, kwargs_get kwargs "scale2");
                      (s3, kwargs_get kwargs "scale3")]) Loras Hup)
    as [-> ->].
Qed.

(** C1: for three (selection, scale) pairs and an optional upstream stack,
    [lora_stacker] returns the stack made of one (resolved path, scale)
    entry per slot whose selection is not ["None"], in slot order, the
    path being the join of the models directory, ["loras"] and the
    selection, followed by the entries of the upstream stack in their
    order, split into the path and the scale sequence. *)
Theorem lora_stacker_entries kwargs Loras s1 s2 s3 c1 c2 c3 :
  selections kwargs s1 s2 s3 ->
  scales kwargs c1 c2 c3 ->
  upstream_aligned Loras ->
  lora_stacker models_dir Loras kwargs =
    Ok (stacked models_dir [(s1, c1); (s2, c2); (s3, c3)] Loras).
Proof.
  intros Hsel (H1 & H2 & H3) Hup.
  rewrite (lora_stacker_aligned_upstream _ _ _ _ _ Hsel Hup).
  now rewrite (kwargs_get_Some _ _ _ H1), (kwargs_get_Some _ _ _ H2),
    (kwargs_get_Some _ _ _ H3).
Qed.

(** C2: whatever the three slot inputs and the upstream socket,
    [lora_stacker] returns a stack whose path and scale sequences have the
    same length. *)
Theorem lora_stacker_aligned kwargs Loras s1 s2 s3 :
  selections kwargs s1 s2 s3 ->
  exists stack,
    lora_stacker models_dir Loras kwargs = Ok stack /\ aligned stack.
Proof.
  intros Hsel. unfold lora_stacker, merged_models.
  rewrite (local_models_selections _ _ _ _ Hsel), !bind_Ok.
  eexists. split; [reflexivity | apply unzip_models_aligned].
Qed.

(** Whenever [lora_stacker] returns, what it returns is aligned. *)
Lemma lora_stacker_returns_aligned kwargs Loras stack :
  lora_stacker models_dir Loras kwargs = Ok stack -> aligned stack.
Proof.
  unfold lora_stacker. intros H.
  apply bind_inv in H as (l & _ & H). injection H as <-.
  apply unzip_models_aligned.
Qed.

(** C3: with three ["None"] selections and no upstream stack, and more
    generally whenever the merged list is empty, [lora_stacker] returns a
    stack of two empty sequences. *)
Theorem lora_stacker_empty kwargs Loras :
  (selections kwargs "None" "None" "None" /\ Loras = LorasNone) \/
  merged_models models_dir Loras kwargs = Ok [] ->
  lora_stacker models_dir Loras kwargs =
    Ok {| lora_paths := []; lora_scales := [] |}.
Proof.
  intros [[Hsel ->] | Hempty]; unfold lora_stacker.
  - unfold merged_models.
    now rewrite (local_models_selections _ _ _ _ Hsel).
  - now rewrite Hempty.
Qed.

End LoraStackerFacts.

(** ** Holders *)

(** C8: clearing a holder sets every field to its cleared value, whatever
    the holder held: path and strength of an image reference become [None],
    the two sequences of a LoRA stack become empty, the model selection of a
    ControlNet configuration becomes [None] and its flag [False]; the
    cleared holder does not depend on the one that was cleared. *)
Theorem clear_cache_clears (i i' : MfluxImagePipeline)
    (l l' : MfluxLorasPipeline) (c c' : MfluxControlNetPipeline) :
  (image_path (ImagePipeline.clear_cache i) = None /\
   strength (ImagePipeline.clear_cache i) = PyNone /\
   ImagePipeline.clear_cache i = ImagePipeline.clear_cache i') /\
  (lora_paths (LorasPipeline.clear_cache l) = [] /\
   lora_scales (LorasPipeline.clear_cache l) = [] /\
   LorasPipeline.clear_cache l = LorasPipeline.clear_cache l') /\
  (model_selection (ControlNetPipeline.clear_cache c) = None /\
   save_canny (ControlNetPipeline.clear_cache c) = PyBool false /\
   ControlNetPipeline.clear_cache c = ControlNetPipeline.clear_cache c').
Proof. repeat split. Qed.

(** ** Rounding *)

(** Rounding to the nearest integer is off by at most one half: with
    [d = 2^p], twice the distance from [m] to [nearest_even m (-p) * d] is
    at most [d]. *)
Lemma nearest_even_error (m : Z) (p : positive) :
  Z.abs (2 * (Float.nearest_even m (Zneg p) * 2 ^ Zpos p - m)) <= 2 ^ Zpos p.
Proof.
  unfold Float.nearest_even.
  assert (Hd : 0 < 2 ^ Zpos p) by (apply Z.pow_pos_nonneg; lia).
  pose proof (Z.div_mod m (2 ^ Zpos p) ltac:(lia)) as Hdm.
  pose proof (Z.mod_pos_bound m (2 ^ Zpos p) Hd) as Hr.
  destruct (Z.compare_spec (2 * (m mod 2 ^ Zpos p)) (2 ^ Zpos p)) as [He|Hl|Hg];
    [destruct (Z.even (m / 2 ^ Zpos p))| |]; nia.
Qed.

(** With a non-negative exponent the value is an integer and is kept. *)
Lemma nearest_even_exact (m e : Z) :
  0 <= e -> Float.nearest_even m e = m * 2 ^ e.
Proof. destruct e; [reflexivity | reflexivity | lia]. Qed.

(** The interpreter's [round(2.675, 2) = 2.67] (the float is below the
    decimal), [round(0.125, 2) = 0.12] (a tie, to the even digit) and
    [round(0.375, 2) = 0.38]. *)
Example round2_values :
  Float.round2 (Float.literal 2675 3) = Float.literal 267 2 /\
  Float.round2 (Float.literal 125 3) = Float.literal 12 2 /\
  Float.round2 (Float.literal 375 3) = Float.literal 38 2.
Proof. repeat split; vm_compute; reflexivity. Qed.

(** ** Image loader *)

Section LoadImageValidation.

Import MfluxLoadImage Contract.

Variable exists_annotated_filepath : string -> bool.

(** [isinstance(v, (int, float))] holds of the numeric values. *)
Lemma isinstance_int_float (v : pyval) :
  isinstance v [int_; float_] = true <-> numeric v.
Proof.
  destruct v; simpl; split; intros H;
    solve [reflexivity | exact I | discriminate | contradiction].
Qed.

(** C7: the validation of the image loader fails exactly when the image
    does not name an existing file or the strength is not numeric, and
    returns [True] exactly for an existing file and a numeric strength. *)
Theorem VALIDATE_INPUTS_fails_iff (image : string) (strength : pyval) :
  (fails (VALIDATE_INPUTS exists_annotated_filepath image strength) <->
     exists_annotated_filepath image = false \/ ~ numeric strength) /\
  (VALIDATE_INPUTS exists_annotated_filepath image strength = VTrue <->
     exists_annotated_filepath image = true /\ numeric strength).
Proof.
  unfold VALIDATE_INPUTS, fails.
  pose proof (isinstance_int_float strength) as Hnum.
  destruct (exists_annotated_filepath image) eqn:Hfile;
    destruct (isinstance strength [int_; float_]); cbn [negb].
  - split; split.
    + intros [msg Hmsg]. discriminate Hmsg.
    + intros [Hf | Hn]; [discriminate Hf | tauto].
    + tauto.
    + reflexivity.
  - split; split.
    + right. intros Hn. apply Hnum in Hn. discriminate Hn.
    + eauto.
    + intros Hv. discriminate Hv.
    + intros [_ Hn]. apply Hnum in Hn. discriminate Hn.
  - split; split; eauto; intros H; [discriminate H | destruct H as [Hf _]; discriminate Hf].
  - split; split; eauto; intros H; [discriminate H | destruct H as [Hf _]; discriminate Hf].
Qed.

(** C10: a boolean strength passes the validation of the image loader:
    for an existing file and [True] or [False] as strength it returns
    [True], since [isinstance] counts a [bool] as an [int]. *)
Theorem VALIDATE_INPUTS_bool_strength (image : string) (b : bool) :
  exists_annotated_filepath image = true ->
  isinstance (PyBool b) [int_; float_] = true /\
  VALIDATE_INPUTS exists_annotated_filepath image (PyBool b) = VTrue.
Proof.
  intros Hfile. split; [reflexivity|].
  unfold VALIDATE_INPUTS. now rewrite Hfile.
Qed.

End LoadImageValidation.

(** ** Hash collisions and float equality *)

Section Collisions.

(** A list of numbers has no repetition, or two of its positions hold the
    same number. *)
Lemma repeated_or_NoDup (l : list nat) :
  List.NoDup l \/
  exists i j, (i < j < length l)%nat /\ nth i l 0%nat = nth j l 0%nat.
Proof.
  induction l as [|a l [IH | (i & j & Hij & Heq)]].
  - left. constructor.
  - destruct (in_dec Nat.eq_dec a l) as [Hin | Hout].
    + right. destruct (In_nth l a 0%nat Hin) as (j & Hj & Hnth).
      exists 0%nat, (S j). simpl. split; [lia | now rewrite Hnth].
    + left. apply List.NoDup_cons; assumption.
  - right. exists (S i), (S j). simpl. split; [lia | exact Heq].
Qed.

(** [N + 1] numbers below [N] cannot all be different. *)
Lemma pigeonhole (N : nat) (g : nat -> nat) :
  (forall n, (n <= N)%nat -> (g n < N)%nat) ->
  exists i j, (i < j <= N)%nat /\ g i = g j.
Proof.
  intros Hrange.
  destruct (repeated_or_NoDup (map g (seq 0 (S N))))
    as [Hnd | (i & j & Hij & Heq)].
  - exfalso.
    assert (Hincl : incl (map g (seq 0 (S N))) (seq 0 N)).
    { intros x Hx. apply in_map_iff in Hx as (n & <- & Hn).
      apply in_seq in Hn. apply in_seq. specialize (Hrange n). lia. }
    pose proof (List.NoDup_incl_length Hnd Hincl) as Hlen.
    rewrite length_map, !length_seq in Hlen. lia.
  - rewrite length_map, length_seq in Hij. exists i, j. split; [lia|].
    rewrite (nth_indep _ 0%nat (g 0%nat)) in Heq
      by (rewrite length_map, length_seq; lia).
    rewrite (nth_indep _ 0%nat (g 0%nat) (n := j)) in Heq
      by (rewrite length_map, length_seq; lia).
    rewrite !map_nth, !seq_nth in Heq by lia. exact Heq.
Qed.

Lemma length_letters (n : nat) : String.length (Host.letters n) = n.
Proof. induction n as [|n IH]; simpl; [reflexivity | now rewrite IH]. Qed.

(** A hash of 64 bits gives the same value to two different identifiers. *)
Lemma hash_collides (hash : string -> Z) :
  Host.hash_range hash ->
  exists image1 image2, image1 <> image2 /\ hash image1 = hash image2.
Proof.
  intros Hrange.
  assert (H63 : 0 < 2 ^ 63) by reflexivity.
  assert (H64 : 2 ^ 64 = 2 * 2 ^ 63) by reflexivity.
  destruct (pigeonhole (Z.to_nat (2 ^ 64))
              (fun n => Z.to_nat (hash (Host.letters n) + 2 ^ 63)))
    as (i & j & Hij & Heq).
  - intros n _. pose proof (Hrange (Host.letters n)) as Hn.
    apply Z2Nat.inj_lt; lia.
  - exists (Host.letters i), (Host.letters j). split.
    + intros E. apply (f_equal String.length) in E.
      rewrite !length_letters in E. lia.
    + pose proof (Hrange (Host.letters i)) as Hi.
      pose proof (Hrange (Host.letters j)) as Hj.
      apply Z2Nat.inj in Heq; lia.
Qed.

(** A float equals itself unless it is NaN. *)
Lemma SFeqb_refl (x : spec_float) : x <> S754_nan -> SFeqb x x = true.
Proof.
  unfold SFeqb. destruct x as [s|s| |s m e]; simpl; intros Hnan.
  - reflexivity.
  - now destruct s.
  - now destruct Hnan.
  - destruct s; rewrite Z.compare_refl, Pos.compare_cont_refl; reflexivity.
Qed.

Lemma key_eq_iff (h1 h2 : Z) (r1 r2 : spec_float) :
  Host.key_eq (h1, r1) (h2, r2) = true <-> h1 = h2 /\ SFeqb r1 r2 = true.
Proof.
  unfold Host.key_eq. simpl. rewrite andb_true_iff, Z.eqb_eq. reflexivity.
Qed.

End Collisions.

Section LoadImageChange.

Import MfluxLoadImage.

Variable hash : string -> Z.
Variable float_of_str : string -> res spec_float.

(** The key is the pair of the hash and the rounded strength. *)
Lemma IS_CHANGED_pair (image : string) (strength : pyval) (x : spec_float) :
  Float.float float_of_str strength = Ok x ->
  IS_CHANGED hash float_of_str image strength =
    Ok (hash image, Float.round2 x).
Proof. unfold IS_CHANGED. now intros ->. Qed.

(** C5, amended: the key is the pair (hash of the identifier, strength
    rounded to two decimals). For the host, which compares keys with [==],
    two keys are the same exactly when the hashes of the identifiers are
    equal and the rounded strengths are equal as floats. So the key is
    stable for the same identifier and the same rounded strength unless
    that is NaN, and it differs whenever the hash of the identifier or the
    rounded strength differs. *)
Theorem IS_CHANGED_key (image1 image2 : string) (strength1 strength2 : pyval)
    (x1 x2 : spec_float) :
  Float.float float_of_str strength1 = Ok x1 ->
  Float.float float_of_str strength2 = Ok x2 ->
  IS_CHANGED hash float_of_str image1 strength1 =
    Ok (hash image1, Float.round2 x1) /\
  IS_CHANGED hash float_of_str image2 strength2 =
    Ok (hash image2, Float.round2 x2) /\
  (Host.key_eq (hash image1, Float.round2 x1) (hash image2, Float.round2 x2)
     = true <->
   hash image1 = hash image2 /\
   SFeqb (Float.round2 x1) (Float.round2 x2) = true) /\
  (image1 = image2 ->
   Float.round2 x1 = Float.round2 x2 ->
   Float.round2 x1 <> S754_nan ->
   Host.key_eq (hash image1, Float.round2 x1) (hash image2, Float.round2 x2)
     = true) /\
  (hash image1 <> hash image2 \/
   SFeqb (Float.round2 x1) (Float.round2 x2) = false ->
   Host.key_eq (hash image1, Float.round2 x1) (hash image2, Float.round2 x2)
     = false).
Proof.
  intros H1 H2.
  rewrite (IS_CHANGED_pair image1 _ _ H1), (IS_CHANGED_pair image2 _ _ H2).
  split; [reflexivity|]. split; [reflexivity|].
  split; [apply key_eq_iff|]. split.
  - intros -> Hround Hnan. apply key_eq_iff. split; [reflexivity|].
    rewrite <- Hround. now apply SFeqb_refl.
  - intros Hdiff.
    destruct (Host.key_eq (hash image1, Float.round2 x1)
                (hash image2, Float.round2 x2)) eqn:Hkey; [|reflexivity].
    apply key_eq_iff in Hkey as [Hh Hr].
    destruct Hdiff as [Hne | Hfalse]; [contradiction | congruence].
Qed.

End LoadImageChange.

(** ** ControlNet loader *)

Section ControlNetLoad.

Import MfluxControlNetLoader.

Variable PILImage : Type.
Variable Image_open : string -> res PILImage.
Variable preprocess_canny : PILImage -> res PILImage.
Variable np_array : PILImage -> ndarray.

Lemma normalize_dim (a : ndarray) : dim (normalize a) = length (nd_shape a).
Proof. reflexivity. Qed.

(** C4: when the edge map of the referenced image converts to an array of
    three dimensions, [load_and_select] returns a tensor of four
    dimensions, a batch dimension of size one in front of the three of the
    array, whose elements are the pixel values divided by 255: each pixel
    converted to binary32 and divided, in binary32, by the binary32
    number 255 (the mantissa 255 * 2^16 with exponent -16). *)
Theorem load_and_select_tensor (model : string) (save : pyval)
    (ref : MfluxImagePipeline) (path : string) (img canny : PILImage) :
  image_path ref = Some path ->
  Image_open path = Ok img ->
  preprocess_canny img = Ok canny ->
  length (nd_shape (np_array canny)) = 3%nat ->
  exists config t,
    load_and_select PILImage Image_open preprocess_canny np_array
      model save (Some ref) = Ok (config, t) /\
    dim t = 4%nat /\
    t_shape t = 1%nat :: nd_shape (np_array canny) /\
    t_data t =
      map (fun px =>
             SFdiv 24 128 (binary_normalize 24 128 px 0 false)
               (S754_finite false 16711680 (-16)))
          (nd_data (np_array canny)).
Proof.
  intros Hpath Hopen Hcanny Hdim.
  unfold load_and_select, open_path.
  rewrite Hpath, Hopen, bind_Ok, Hcanny, bind_Ok.
  rewrite normalize_dim, Hdim. simpl.
  do 2 eexists. split; [reflexivity|].
  unfold dim. simpl. rewrite Hdim.
  split; [reflexivity|]. split; reflexivity.
Qed.

(** C9: the result of [load_and_select] does not depend on the strength of
    the reference: two references with the same path give the same
    configuration and the same tensor, or the same exception. *)
Theorem load_and_select_ignores_strength (model : string) (save : pyval)
    (ref1 ref2 : MfluxImagePipeline) :
  image_path ref1 = image_path ref2 ->
  load_and_select PILImage Image_open preprocess_canny np_array
    model save (Some ref1) =
  load_and_select PILImage Image_open preprocess_canny np_array
    model save (Some ref2).
Proof.
  destruct ref1 as [path1 strength1], ref2 as [path2 strength2]. simpl.
  intros ->. reflexivity.
Qed.

End ControlNetLoad.

Section ControlNetValidation.

Import MfluxControlNetLoader Contract.

Variable exists_annotated_filepath : string -> bool.


Lemma available_models_supported (model : string) :
  existsb (String.eqb model) available_models = true <-> supported model.
Proof.
  unfold supported. rewrite existsb_exists. split.
  - intros (m & Hin & Heq). apply String.eqb_eq in Heq. now subst.
  - intros Hin. exists model. split; [assumption | apply String.eqb_refl].
Qed.



End ControlNetValidation.

(** ** Concrete runs *)

(** The pixel values of a byte are normalised into the unit interval. *)
Lemma div255_byte_unit_interval :
  forallb
    (fun px =>
       SFleb (S754_zero false) (Float.div255 (Float.f32_of_Z px)) &&
       SFleb (Float.div255 (Float.f32_of_Z px)) (Float.f32_of_Z 1))
    (map Z.of_nat (seq 0 256)) = true.
Proof. vm_compute. reflexivity. Qed.

(** The example of the specification: one selection with scale 0.8. *)
Example lora_stacker_single :
  MfluxLorasLoader.lora_stacker "/models" LorasNone
    (LoraSpec.kwargs_of "a.safetensors" "None" "None"
       (PyFloat (Float.literal 8 1)) Demo.full Demo.full) =
  Ok {| lora_paths := ["/models/loras/a.safetensors"];
        lora_scales := [PyFloat (Float.literal 8 1)] |}.
Proof. vm_compute. reflexivity. Qed.

(** A missing selection is not the string ["None"], and joining it to the
    directory is a type error. *)
Example lora_stacker_missing_selection :
  MfluxLorasLoader.lora_stacker "/models" LorasNone ∅ = Raise TypeError.
Proof. vm_compute. reflexivity. Qed.

(** Two selections, an empty slot and an upstream stack of one entry. *)
Lemma lora_stacker_entries_witness :
  LoraSpec.selections Demo.kwargs "a.safetensors" "None" "b.safetensors" /\
  LoraSpec.scales Demo.kwargs
    (PyFloat (Float.literal 8 1)) Demo.full Demo.half /\
  LoraSpec.upstream_aligned Demo.upstream /\
  MfluxLorasLoader.lora_stacker Demo.models_dir Demo.upstream
    Demo.kwargs =
  Ok {| lora_paths := ["/models/loras/a.safetensors";
                       "/models/loras/b.safetensors";
                       "/models/loras/style.safetensors"];
        lora_scales := [PyFloat (Float.literal 8 1); Demo.half;
                        Demo.half] |}.
Proof.
  assert (Hsel : LoraSpec.selections Demo.kwargs
                   "a.safetensors" "None" "b.safetensors")
    by (repeat split; reflexivity).
  assert (Hsc : LoraSpec.scales Demo.kwargs
                  (PyFloat (Float.literal 8 1)) Demo.full Demo.half)
    by (repeat split; reflexivity).
  assert (Hup : LoraSpec.upstream_aligned Demo.upstream) by reflexivity.
  split; [exact Hsel|]. split; [exact Hsc|]. split; [exact Hup|].
  exact (lora_stacker_entries Demo.models_dir Demo.kwargs
           Demo.upstream _ _ _ _ _ _ Hsel Hsc Hup).
Defined.

(** The same call returns an aligned stack. *)
Lemma lora_stacker_aligned_witness :
  LoraSpec.selections Demo.kwargs "a.safetensors" "None" "b.safetensors" /\
  exists stack,
    MfluxLorasLoader.lora_stacker Demo.models_dir Demo.upstream
      Demo.kwargs = Ok stack /\
    LoraSpec.aligned stack.
Proof.
  assert (Hsel : LoraSpec.selections Demo.kwargs
                   "a.safetensors" "None" "b.safetensors")
    by (repeat split; reflexivity).
  split; [exact Hsel|].
  exact (lora_stacker_aligned Demo.models_dir Demo.kwargs
           Demo.upstream _ _ _ Hsel).
Defined.

(** Three empty slots and no upstream stack. *)
Lemma lora_stacker_empty_witness :
  (LoraSpec.selections Demo.kwargs_none "None" "None" "None" /\
   LorasNone = LorasNone) /\
  MfluxLorasLoader.lora_stacker Demo.models_dir LorasNone
    Demo.kwargs_none =
  Ok {| lora_paths := []; lora_scales := [] |}.
Proof.
  assert (Hnone : LoraSpec.selections Demo.kwargs_none "None" "None" "None"
                  /\ LorasNone = LorasNone)
    by (repeat split; reflexivity).
  split; [exact Hnone|].
  exact (lora_stacker_empty Demo.models_dir Demo.kwargs_none LorasNone
           (or_introl Hnone)).
Defined.

(** Strengths that agree to two decimals share a key: 0.401 and 0.402
    differ, and the key of the same image is the same for both. *)
Example IS_CHANGED_rounding_conflates :
  PyFloat (Float.literal 401 3) <> PyFloat (Float.literal 402 3) /\
  forall (hash : string -> Z) (float_of_str : string -> res spec_float),
    MfluxLoadImage.IS_CHANGED hash float_of_str "cat.png"
      (PyFloat (Float.literal 401 3)) =
    MfluxLoadImage.IS_CHANGED hash float_of_str "cat.png"
      (PyFloat (Float.literal 402 3)).
Proof.
  split.
  - intros Heq. vm_compute in Heq. discriminate Heq.
  - intros hash float_of_str.
    rewrite (IS_CHANGED_pair hash float_of_str "cat.png"
               (PyFloat (Float.literal 401 3)) (Float.literal 401 3) eq_refl).
    rewrite (IS_CHANGED_pair hash float_of_str "cat.png"
               (PyFloat (Float.literal 402 3)) (Float.literal 402 3) eq_refl).
    do 2 f_equal.
Qed.

(** C5 as stated fails twice. With NaN as the strength the key of one and
    the same invocation is not equal to itself for the host, so it is not
    stable; and for every hash of 64 bits there are two different
    identifiers whose keys, for the strength 0.4, are equal for the host,
    so a change of identifier need not change the key. *)
Lemma IS_CHANGED_unstable_or_colliding :
  (forall (hash : string -> Z) (float_of_str : string -> res spec_float),
     MfluxLoadImage.IS_CHANGED hash float_of_str "cat.png"
       (PyFloat S754_nan) = Ok (hash "cat.png", S754_nan) /\
     Host.key_eq (hash "cat.png", S754_nan) (hash "cat.png", S754_nan)
       = false) /\
  (forall (hash : string -> Z) (float_of_str : string -> res spec_float),
     Host.hash_range hash ->
     exists image1 image2,
       image1 <> image2 /\
       MfluxLoadImage.IS_CHANGED hash float_of_str image1
         (PyFloat (Float.literal 4 1)) =
         Ok (hash image1, Float.literal 4 1) /\
       MfluxLoadImage.IS_CHANGED hash float_of_str image2
         (PyFloat (Float.literal 4 1)) =
         Ok (hash image2, Float.literal 4 1) /\
       Host.key_eq (hash image1, Float.literal 4 1)
         (hash image2, Float.literal 4 1) = true).
Proof.
  split.
  - intros hash float_of_str. split; [reflexivity|].
    unfold Host.key_eq. simpl. apply andb_false_r.
  - intros hash float_of_str Hrange.
    destruct (hash_collides hash Hrange) as (image1 & image2 & Hne & Hhash).
    exists image1, image2. split; [exact Hne|].
    split; [|split].
    + rewrite (IS_CHANGED_pair hash float_of_str image1
                 (PyFloat (Float.literal 4 1)) (Float.literal 4 1) eq_refl).
      do 2 f_equal.
    + rewrite (IS_CHANGED_pair hash float_of_str image2
                 (PyFloat (Float.literal 4 1)) (Float.literal 4 1) eq_refl).
      do 2 f_equal.
    + apply key_eq_iff. split; [exact Hhash|]. vm_compute. reflexivity.
Qed.

(** Two keys with the same hash and different rounded strengths. *)
Lemma IS_CHANGED_key_witness :
  Float.float Demo.float_of_str (PyFloat (Float.literal 401 3)) =
    Ok (Float.literal 401 3) /\
  Float.float Demo.float_of_str (PyBool true) = Ok (Float.literal 1 0) /\
  MfluxLoadImage.IS_CHANGED Demo.hash Demo.float_of_str "cat.png"
    (PyFloat (Float.literal 401 3)) = Ok (7, Float.literal 4 1) /\
  MfluxLoadImage.IS_CHANGED Demo.hash Demo.float_of_str "dog.png"
    (PyBool true) = Ok (7, Float.literal 1 0) /\
  (Host.key_eq (7, Float.literal 4 1) (7, Float.literal 1 0) = true <->
   Demo.hash "cat.png" = Demo.hash "dog.png" /\
   SFeqb (Float.literal 4 1) (Float.literal 1 0) = true) /\
  ("cat.png" = "dog.png" ->
   Float.literal 4 1 = Float.literal 1 0 ->
   Float.literal 4 1 <> S754_nan ->
   Host.key_eq (7, Float.literal 4 1) (7, Float.literal 1 0) = true) /\
  (Demo.hash "cat.png" <> Demo.hash "dog.png" \/
   SFeqb (Float.literal 4 1) (Float.literal 1 0) = false ->
   Host.key_eq (7, Float.literal 4 1) (7, Float.literal 1 0) = false).
Proof.
  assert (H1 : Float.float Demo.float_of_str
                 (PyFloat (Float.literal 401 3)) = Ok (Float.literal 401 3))
    by reflexivity.
  assert (H2 : Float.float Demo.float_of_str (PyBool true) =
               Ok (Float.literal 1 0))
    by (vm_compute; reflexivity).
  split; [exact H1|]. split; [exact H2|].
  exact (IS_CHANGED_key Demo.hash Demo.float_of_str "cat.png" "dog.png"
           _ _ _ _ H1 H2).
Defined.

(** [True] as the strength of an existing image. *)
Lemma VALIDATE_INPUTS_bool_strength_witness :
  Demo.exists_annotated_filepath "cat.png" = true /\
  isinstance (PyBool true) [int_; float_] = true /\
  MfluxLoadImage.VALIDATE_INPUTS Demo.exists_annotated_filepath
    "cat.png" (PyBool true) = VTrue.
Proof.
  split; [reflexivity|].
  exact (VALIDATE_INPUTS_bool_strength Demo.exists_annotated_filepath
           "cat.png" true eq_refl).
Defined.

(** The edge map of [cat.png] becomes a tensor of shape 1 x 2 x 2 x 3 that
    holds 0.0 for the pixel 0 and 1.0 for the pixel 255. *)
Lemma load_and_select_tensor_witness :
  image_path Demo.reference = Some "cat.png" /\
  Demo.Image_open "cat.png" = Ok Demo.edges /\
  Demo.preprocess_canny Demo.edges = Ok Demo.edges /\
  length (nd_shape (Demo.np_array Demo.edges)) = 3%nat /\
  exists config t,
    MfluxControlNetLoader.load_and_select ndarray Demo.Image_open
      Demo.preprocess_canny Demo.np_array
      "InstantX/FLUX.1-dev-Controlnet-Canny" (PyBool false)
      (Some Demo.reference) = Ok (config, t) /\
    MfluxControlNetLoader.dim t = 4%nat /\
    t_shape t = [1%nat; 2%nat; 2%nat; 3%nat] /\
    t_data t =
      [S754_zero false; S754_zero false; S754_zero false;
       S754_finite false 8388608 (-23); S754_finite false 8388608 (-23);
       S754_finite false 8388608 (-23); S754_finite false 8388608 (-23);
       S754_finite false 8388608 (-23); S754_finite false 8388608 (-23);
       S754_zero false; S754_zero false; S754_zero false].
Proof.
  split; [reflexivity|]. split; [reflexivity|]. split; [reflexivity|].
  split; [reflexivity|].
  exact (load_and_select_tensor ndarray Demo.Image_open
           Demo.preprocess_canny Demo.np_array
           "InstantX/FLUX.1-dev-Controlnet-Canny" (PyBool false)
           Demo.reference "cat.png" Demo.edges Demo.edges
           eq_refl eq_refl eq_refl eq_refl).
Defined.

(** The same image with strength 0.5 and with strength 1.0. *)
Lemma load_and_select_ignores_strength_witness :
  image_path Demo.reference =
    image_path {| image_path := Some "cat.png"; strength := Demo.full |} /\
  MfluxControlNetLoader.load_and_select ndarray Demo.Image_open
    Demo.preprocess_canny Demo.np_array
    "InstantX/FLUX.1-dev-Controlnet-Canny" (PyBool false)
    (Some Demo.reference) =
  MfluxControlNetLoader.load_and_select ndarray Demo.Image_open
    Demo.preprocess_canny Demo.np_array
    "InstantX/FLUX.1-dev-Controlnet-Canny" (PyBool false)
    (Some {| image_path := Some "cat.png"; strength := Demo.full |}).
Proof.
  split; [reflexivity|].
  exact (load_and_select_ignores_strength ndarray Demo.Image_open
           Demo.preprocess_canny Demo.np_array
           "InstantX/FLUX.1-dev-Controlnet-Canny" (PyBool false)
           Demo.reference
           {| image_path := Some "cat.png"; strength := Demo.full |}
           eq_refl).
Defined.




(** A cleared reference makes the validation raise: the host's check gets
    [None] where it expects a name. *)
Example controlnet_VALIDATE_INPUTS_cleared :
  MfluxControlNetLoader.VALIDATE_INPUTS Demo.exists_annotated_filepath
    (Some (ImagePipeline.clear_cache Demo.reference))
    "InstantX/FLUX.1-dev-Controlnet-Canny" (PyBool false) =
  Raise AttributeError.
Proof. reflexivity. Qed.

(** Without a reference [load_and_select] opens [None] and raises. *)
Example load_and_select_no_image :
  MfluxControlNetLoader.load_and_select ndarray Demo.Image_open
    Demo.preprocess_canny Demo.np_array
    "InstantX/FLUX.1-dev-Controlnet-Canny" (PyBool false) None =
  Raise AttributeError.
Proof. reflexivity. Qed.

(** * Further properties *)

(** ** LoRA loader: errors, upstream stacks and chaining *)

Section LoraStackerMore.

Import MfluxLorasLoader LoraSpec Shape.

Variable models_dir : string.
Implicit Types (kwargs : gmap string pyval) (Loras : loras_socket).

Lemma kwargs_get_str kwargs k s :
  kwargs_get kwargs k = PyStr s -> kwargs !! k = Some (PyStr s).
Proof.
  unfold kwargs_get. destruct (kwargs !! k) as [v|]; [now intros ->|].
  intros H. discriminate H.
Qed.

Lemma is_str_cases (v : pyval) : is_str v \/ (forall s, v <> PyStr s).
Proof.
  destruct v; try (right; intros s H; discriminate H).
  left. now eexists.
Qed.

(** A selection that is not a string cannot be joined to the directory. *)
Lemma slot_not_str kwargs i :
  (forall s, kwargs_get kwargs (fstr "Lora" i) <> PyStr s) ->
  slot models_dir kwargs i = Raise TypeError.
Proof.
  intros Hno. unfold slot.
  destruct (kwargs_get kwargs (fstr "Lora" i)) as [| | | |s];
    try reflexivity.
  now destruct (Hno s).
Qed.

Lemma slot_is_str kwargs i :
  is_str (kwargs_get kwargs (fstr "Lora" i)) ->
  exists l, slot models_dir kwargs i = Ok l.
Proof.
  intros [s Hs]. apply kwargs_get_str in Hs.
  rewrite (slot_selection models_dir kwargs i s Hs). eauto.
Qed.

Lemma selections_are_str_iff kwargs :
  selections_are_str kwargs <-> exists s1 s2 s3, selections kwargs s1 s2 s3.
Proof.
  unfold selections_are_str, selections, is_str. split.
  - intros ([s1 H1] & [s2 H2] & [s3 H3]). exists s1, s2, s3.
    repeat split; now apply kwargs_get_str.
  - intros (s1 & s2 & s3 & H1 & H2 & H3).
    rewrite (kwargs_get_Some _ _ _ H1), (kwargs_get_Some _ _ _ H2),
      (kwargs_get_Some _ _ _ H3).
    split; [eexists; reflexivity|]. split; eexists; reflexivity.
Qed.

(** The comprehension raises as soon as one selection is not a string. *)
Lemma local_models_not_str kwargs :
  ~ selections_are_str kwargs ->
  local_models models_dir kwargs = Raise TypeError.
Proof.
  intros Hno. unfold local_models. simpl comprehension.
  destruct (is_str_cases (kwargs_get kwargs "Lora1")) as [H1|H1].
  - destruct (slot_is_str kwargs 1 H1) as [l1 ->]. rewrite bind_Ok.
    destruct (is_str_cases (kwargs_get kwargs "Lora2")) as [H2|H2].
    + destruct (slot_is_str kwargs 2 H2) as [l2 ->]. rewrite bind_Ok.
      destruct (is_str_cases (kwargs_get kwargs "Lora3")) as [H3|H3].
      * destruct Hno. now repeat split.
      * now rewrite (slot_not_str kwargs 3 H3).
    + now rewrite (slot_not_str kwargs 2 H2).
  - now rewrite (slot_not_str kwargs 1 H1).
Qed.

(** X1: [lora_stacker] returns a stack exactly when the three selections
    are strings; otherwise, a missing selection included, it raises
    [TypeError]. *)
Theorem lora_stacker_returns_iff kwargs Loras :
  ((exists stack, lora_stacker models_dir Loras kwargs = Ok stack) <->
   selections_are_str kwargs) /\
  (lora_stacker models_dir Loras kwargs = Raise TypeError <->
   ~ selections_are_str kwargs).
Proof.
  assert (Hyes : selections_are_str kwargs ->
                 exists stack, lora_stacker models_dir Loras kwargs = Ok stack).
  { intros Hstr. apply selections_are_str_iff in Hstr as (s1 & s2 & s3 & Hsel).
    unfold lora_stacker, merged_models.
    rewrite (local_models_selections models_dir _ _ _ _ Hsel), !bind_Ok.
    eauto. }
  assert (Hno : ~ selections_are_str kwargs ->
                lora_stacker models_dir Loras kwargs = Raise TypeError).
  { intros Hstr. unfold lora_stacker, merged_models.
    now rewrite (local_models_not_str kwargs Hstr). }
  split; split.
  - intros [stack Hok].
    destruct (is_str_cases (kwargs_get kwargs "Lora1")) as [H1|H1];
      destruct (is_str_cases (kwargs_get kwargs "Lora2")) as [H2|H2];
      destruct (is_str_cases (kwargs_get kwargs "Lora3")) as [H3|H3];
      try (now repeat split);
      rewrite Hno in Hok;
      try discriminate Hok;
      intros ([s1 E1] & [s2 E2] & [s3 E3]);
      solve [now destruct (H1 s1) | now destruct (H2 s2) | now destruct (H3 s3)].
  - exact Hyes.
  - intros Hraise Hstr. destruct (Hyes Hstr) as [stack Hok].
    rewrite Hok in Hraise. discriminate Hraise.
  - exact Hno.
Qed.

(** The test on the two sequences changes nothing: [zip] of an empty
    sequence is empty. *)
Lemma extend_upstream_zipped (l : list (string * pyval)) Loras :
  extend_upstream l Loras = l ++ zipped_upstream Loras.
Proof.
  unfold zipped_upstream.
  destruct Loras as [|[paths scs]|v]; simpl; try now rewrite app_nil_r.
  destruct paths, scs; simpl; try now rewrite app_nil_r.
  reflexivity.
Qed.

Lemma map_fst_combine_firstn {A B : Type} (l : list A) (l' : list B) :
  map fst (combine l l') = firstn (length l') l.
Proof.
  revert l'. induction l as [|a l IH]; intros [|b l']; simpl;
    try reflexivity.
  now rewrite IH.
Qed.

Lemma map_snd_combine_firstn {A B : Type} (l : list A) (l' : list B) :
  map snd (combine l l') = firstn (length l) l'.
Proof.
  revert l'. induction l as [|a l IH]; intros [|b l']; simpl;
    try reflexivity.
  now rewrite IH.
Qed.

(** What [lora_stacker] returns for three string selections and any
    socket. *)
Lemma lora_stacker_any_upstream kwargs Loras s1 s2 s3 :
  selections kwargs s1 s2 s3 ->
  lora_stacker models_dir Loras kwargs =
    Ok (unzip_models
          (local_entries models_dir
             [(s1, kwargs_get kwargs "scale1");
              (s2, kwargs_get kwargs "scale2");
              (s3, kwargs_get kwargs "scale3")] ++ zipped_upstream Loras)).
Proof.
  intros Hsel. unfold lora_stacker, merged_models.
  rewrite (local_models_selections models_dir _ _ _ _ Hsel), !bind_Ok.
  now rewrite extend_upstream_zipped.
Qed.

(** X2: the upstream sequences are zipped, so of an upstream holder whose
    sequences differ in length only as many entries as the shorter one has
    are kept, the first ones, behind the local entries. *)
Theorem lora_stacker_truncates kwargs Loras s1 s2 s3 :
  selections kwargs s1 s2 s3 ->
  exists stack,
    lora_stacker models_dir Loras kwargs = Ok stack /\
    lora_paths stack =
      map fst (local_entries models_dir
                 [(s1, kwargs_get kwargs "scale1");
                  (s2, kwargs_get kwargs "scale2");
                  (s3, kwargs_get kwargs "scale3")]) ++
      firstn (length (upstream_scales Loras)) (upstream_paths Loras) /\
    lora_scales stack =
      map snd (local_entries models_dir
                 [(s1, kwargs_get kwargs "scale1");
                  (s2, kwargs_get kwargs "scale2");
                  (s3, kwargs_get kwargs "scale3")]) ++
      firstn (length (upstream_paths Loras)) (upstream_scales Loras).
Proof.
  intros Hsel. eexists. split.
  - apply (lora_stacker_any_upstream _ _ _ _ _ Hsel).
  - rewrite unzip_models_split. simpl. rewrite !map_app.
    unfold zipped_upstream.
    now rewrite map_fst_combine_firstn, map_snd_combine_firstn.
Qed.

(** X3: an upstream value that is not a stack, a cleared stack, and a
    stack one of whose sequences is empty all count as no upstream. *)
Theorem lora_stacker_inert_upstream kwargs (v : pyval)
    (s : MfluxLorasPipeline) (paths : list string) (scs : list pyval) :
  lora_stacker models_dir (LorasForeign v) kwargs =
    lora_stacker models_dir LorasNone kwargs /\
  lora_stacker models_dir (LorasStack (LorasPipeline.clear_cache s)) kwargs =
    lora_stacker models_dir LorasNone kwargs /\
  lora_stacker models_dir
    (LorasStack {| lora_paths := paths; lora_scales := [] |}) kwargs =
    lora_stacker models_dir LorasNone kwargs /\
  lora_stacker models_dir
    (LorasStack {| lora_paths := []; lora_scales := scs |}) kwargs =
    lora_stacker models_dir LorasNone kwargs.
Proof.
  unfold lora_stacker, merged_models.
  destruct (local_models models_dir kwargs) as [l|e]; [|now repeat split].
  rewrite !bind_Ok, !extend_upstream_zipped. unfold zipped_upstream. simpl.
  destruct paths; now repeat split.
Qed.

Lemma local_entries_length (slots : list (string * pyval)) :
  length (local_entries models_dir slots) = length (chosen (map fst slots)).
Proof.
  unfold local_entries, chosen. rewrite length_map.
  induction slots as [|[s c] slots IH]; [reflexivity|]. simpl.
  destruct (String.eqb s "None"); simpl; now rewrite IH.
Qed.

(** X5: the stack holds one entry per selection that is not ["None"] and
    one per zipped upstream entry: at most three more than upstream. *)
Theorem lora_stacker_length kwargs Loras s1 s2 s3 :
  selections kwargs s1 s2 s3 ->
  exists stack,
    lora_stacker models_dir Loras kwargs = Ok stack /\
    length (lora_paths stack) =
      (length (chosen [s1; s2; s3]) +
       Nat.min (length (upstream_paths Loras))
               (length (upstream_scales Loras)))%nat /\
    (length (lora_paths stack) <= 3 + length (upstream_paths Loras))%nat.
Proof.
  intros Hsel. eexists. split.
  - apply (lora_stacker_any_upstream _ _ _ _ _ Hsel).
  - rewrite unzip_models_split. simpl lora_paths.
    rewrite length_map, length_app, local_entries_length.
    unfold zipped_upstream. rewrite length_combine. simpl map.
    assert (Hle : (length (chosen [s1; s2; s3]) <= 3)%nat).
    { unfold chosen. etransitivity; [apply List.filter_length_le|]. simpl. lia. }
    split; lia.
Qed.

(** X4: two loaders in a row: the second puts its entries in front of
    those of the first, which stand in front of the upstream ones. *)
Theorem lora_stacker_chain kwargs1 kwargs2 Loras a1 a2 a3 b1 b2 b3 :
  selections kwargs1 a1 a2 a3 ->
  selections kwargs2 b1 b2 b3 ->
  upstream_aligned Loras ->
  exists first,
    lora_stacker models_dir Loras kwargs1 = Ok first /\
    lora_stacker models_dir (LorasStack first) kwargs2 =
      Ok {| lora_paths :=
              map fst (local_entries models_dir
                         [(b1, kwargs_get kwargs2 "scale1");
                          (b2, kwargs_get kwargs2 "scale2");
                          (b3, kwargs_get kwargs2 "scale3")]) ++
              map fst (local_entries models_dir
                         [(a1, kwargs_get kwargs1 "scale1");
                          (a2, kwargs_get kwargs1 "scale2");
                          (a3, kwargs_get kwargs1 "scale3")]) ++
              upstream_paths Loras;
            lora_scales :=
              map snd (local_entries models_dir
                         [(b1, kwargs_get kwargs2 "scale1");
                          (b2, kwargs_get kwargs2 "scale2");
                          (b3, kwargs_get kwargs2 "scale3")]) ++
              map snd (local_entries models_dir
                         [(a1, kwargs_get kwargs1 "scale1");
                          (a2, kwargs_get kwargs1 "scale2");
                          (a3, kwargs_get kwargs1 "scale3")]) ++
              upstream_scales Loras |}.
Proof.
  intros Hsel1 Hsel2 Hup. eexists. split.
  - apply (lora_stacker_aligned_upstream models_dir _ _ _ _ _ Hsel1 Hup).
  - rewrite (lora_stacker_aligned_upstream models_dir kwargs2 _ _ _ _ Hsel2).
    + reflexivity.
    + simpl. unfold aligned. simpl. rewrite !length_app, !length_map.
      destruct Loras as [|st|v]; simpl in *; [reflexivity | | reflexivity].
      unfold aligned in Hup. now rewrite Hup.
Qed.

(** X6: a selection that starts with a separator is taken as it is: its
    path in the stack is the selection, not a file under the models
    directory. *)
Theorem lora_stacker_absolute_selection kwargs Loras s1 s2 s3 :
  selections kwargs s1 s2 s3 ->
  PosixPath.startswith_sep s1 = true ->
  exists stack,
    lora_stacker models_dir Loras kwargs = Ok stack /\
    hd_error (lora_paths stack) = Some s1 /\
    hd_error (lora_scales stack) = Some (kwargs_get kwargs "scale1").
Proof.
  intros Hsel Habs. eexists. split.
  - apply (lora_stacker_any_upstream _ _ _ _ _ Hsel).
  - rewrite unzip_models_split. unfold local_entries. simpl.
    destruct s1 as [|c s1]; [discriminate Habs|].
    assert (Hnone : String.eqb (String c s1) "None" = false).
    { simpl in Habs. apply Ascii.eqb_eq in Habs. subst c. reflexivity. }
    rewrite Hnone. simpl.
    now rewrite (resolved_path_absolute models_dir (String c s1) Habs).
Qed.

(** X7: with a models directory that does not end with a separator and
    relative selections, and no upstream stack, the paths are
    [models_dir/loras/selection] for the selections that are not
    ["None"], in slot order. *)
Theorem lora_stacker_relative_paths kwargs s1 s2 s3 :
  selections kwargs s1 s2 s3 ->
  models_dir <> "" ->
  PosixPath.endswith_sep models_dir = false ->
  Forall (fun s => PosixPath.startswith_sep s = false) [s1; s2; s3] ->
  exists stack,
    lora_stacker models_dir LorasNone kwargs = Ok stack /\
    lora_paths stack =
      map (fun s => String.append models_dir (String.append "/loras/" s))
          (chosen [s1; s2; s3]).
Proof.
  intros Hsel Hne Hend Hrel. eexists. split.
  - apply (lora_stacker_any_upstream _ _ _ _ _ Hsel).
  - rewrite unzip_models_split. simpl lora_paths.
    unfold zipped_upstream. simpl combine. rewrite app_nil_r.
    unfold local_entries, chosen. rewrite map_map. simpl.
    inversion Hrel as [|? ? R1 Hrel2]; subst.
    inversion Hrel2 as [|? ? R2 Hrel3]; subst.
    inversion Hrel3 as [|? ? R3 _]; subst.
    destruct (String.eqb s1 "None"), (String.eqb s2 "None"),
      (String.eqb s3 "None"); simpl;
      rewrite ?(resolved_path_relative models_dir s1 Hne Hend R1),
        ?(resolved_path_relative models_dir s2 Hne Hend R2),
        ?(resolved_path_relative models_dir s3 Hne Hend R3);
      reflexivity.
Qed.

End LoraStackerMore.

(** ** Strings *)

Section StringFacts.

Lemma length_append (a b : string) :
  String.length (String.append a b) = (String.length a + String.length b)%nat.
Proof.
  induction a as [|c a IH]; [reflexivity|].
  change (S (String.length (String.append a b)) =
          S (String.length a + String.length b)).
  now rewrite IH.
Qed.

(** Two concatenations with suffixes of the same length are equal only if
    their parts are. *)
Lemma append_inj_suffix (a b x y : string) :
  String.append a x = String.append b y ->
  String.length x = String.length y ->
  a = b /\ x = y.
Proof.
  revert b. induction a as [|c a IH]; intros [|d b] Heq Hlen.
  - now split.
  - exfalso. change (x = String d (String.append b y)) in Heq.
    subst x. simpl in Hlen. rewrite length_append in Hlen. lia.
  - exfalso. change (String c (String.append a x) = y) in Heq.
    subst y. simpl in Hlen. rewrite length_append in Hlen. lia.
  - change (String c (String.append a x) = String d (String.append b y))
      in Heq.
    injection Heq as -> Heq. destruct (IH b Heq Hlen) as [-> ->].
    now split.
Qed.

End StringFacts.

(** ** Finite checks *)

Lemma upto_forallb (P : Z -> bool) (n : nat) :
  forallb P (Widget.upto n) = true ->
  forall k, 0 <= k <= Z.of_nat n -> P k = true.
Proof.
  unfold Widget.upto. rewrite forallb_forall. intros Hall k Hk.
  apply Hall. apply in_map_iff. exists (Z.to_nat k). split; [lia|].
  apply in_seq. lia.
Qed.

Lemma same_eq (x y : spec_float) : Widget.same x y = true -> x = y.
Proof.
  destruct x as [s|s| |s m e], y as [s'|s'| |s' m' e']; simpl;
    try discriminate; try reflexivity.
  - intros H. apply Bool.eqb_prop in H. now subst.
  - intros H. apply Bool.eqb_prop in H. now subst.
  - intros H. apply andb_prop in H as [H He]. apply andb_prop in H as [Hs Hm].
    apply Bool.eqb_prop in Hs. apply Pos.eqb_eq in Hm. apply Z.eqb_eq in He.
    now subst.
Qed.

(** On the grid of the strength widget rounding changes nothing, and the
    number of hundredths is read back. *)
Lemma hundredths_fixed (k : Z) :
  0 <= k <= 100 ->
  Float.round2 (Widget.hundredths k) = Widget.hundredths k /\
  Widget.nearest_hundredth (Widget.hundredths k) = k.
Proof.
  intros Hk.
  assert (Hall : forallb
                   (fun k =>
                      Widget.same (Float.round2 (Widget.hundredths k))
                        (Widget.hundredths k) &&
                      Z.eqb (Widget.nearest_hundredth (Widget.hundredths k)) k)
                   (Widget.upto 100) = true)
    by (vm_compute; reflexivity).
  pose proof (upto_forallb _ 100 Hall k Hk) as H.
  apply andb_prop in H as [Hsame Hback].
  split; [now apply same_eq | now apply Z.eqb_eq].
Qed.

(** ** Image loader: the key on the grid, the listing, and the reference *)

Section LoadImageMore.

Import MfluxLoadImage.

Variable hash : string -> Z.
Variable float_of_str : string -> res spec_float.

(** X8: for a strength on the grid of the widget (a multiple of 0.01
    between 0 and 1) the key holds the strength itself, and two different
    strengths of the grid give different keys for the same image. *)
Theorem IS_CHANGED_grid (image : string) (k1 k2 : Z) :
  0 <= k1 <= 100 ->
  0 <= k2 <= 100 ->
  IS_CHANGED hash float_of_str image (PyFloat (Widget.hundredths k1)) =
    Ok (hash image, Widget.hundredths k1) /\
  (IS_CHANGED hash float_of_str image (PyFloat (Widget.hundredths k1)) =
   IS_CHANGED hash float_of_str image (PyFloat (Widget.hundredths k2)) <->
   k1 = k2).
Proof.
  intros H1 H2.
  destruct (hundredths_fixed k1 H1) as [R1 B1].
  destruct (hundredths_fixed k2 H2) as [R2 B2].
  unfold IS_CHANGED. simpl. rewrite R1, R2. split; [reflexivity|].
  split.
  - intros Heq. injection Heq as Heq. rewrite <- B1, <- B2. now rewrite Heq.
  - now intros ->.
Qed.

End LoadImageMore.

Section LoadImageReference.

Import MfluxLoadImage.

Variable get_annotated_filepath : string -> string.
Variable image_size : string -> res (Z * Z).
Variable exists_annotated_filepath : string -> bool.

(** X18: [load_and_process] returns exactly when the image at the annotated
    path opens; the reference it returns holds that path and the strength it
    was given, with the size of the image, and the validation of the
    ControlNet loader returns a verdict on it, never an exception. *)
Theorem load_and_process_reference (image : string) (strength : pyval)
    (model : string) (save : pyval) :
  (forall ref w h,
     load_and_process get_annotated_filepath image_size image strength =
       Ok (ref, w, h) <->
     image_size (get_annotated_filepath image) = Ok (w, h) /\
     ref = {| image_path := Some (get_annotated_filepath image);
              strength := strength |}) /\
  (forall ref w h,
     load_and_process get_annotated_filepath image_size image strength =
       Ok (ref, w, h) ->
     exists v,
       MfluxControlNetLoader.VALIDATE_INPUTS exists_annotated_filepath
         (Some ref) model save = Ok v).
Proof.
  assert (Hiff : forall ref w h,
     load_and_process get_annotated_filepath image_size image strength =
       Ok (ref, w, h) <->
     image_size (get_annotated_filepath image) = Ok (w, h) /\
     ref = {| image_path := Some (get_annotated_filepath image);
              strength := strength |}).
  { intros ref w h. unfold load_and_process.
    destruct (image_size (get_annotated_filepath image)) as [[w' h']|e];
      simpl; split.
    - intros H. injection H as <- <- <-. now split.
    - intros [H ->]. injection H as -> ->. reflexivity.
    - intros H. discriminate H.
    - intros [H _]. discriminate H. }
  split; [exact Hiff|].
  intros ref w h Hok. apply Hiff in Hok as [_ ->].
  unfold MfluxControlNetLoader.VALIDATE_INPUTS. simpl.
  destruct (exists_annotated_filepath (get_annotated_filepath image));
    simpl; eauto.
Qed.

End LoadImageReference.

Section LoadImageListing.

Import MfluxLoadImageInputs.

Lemma filter_Permutation {A : Type} (f : A -> bool) (l l' : list A) :
  Permutation l l' -> Permutation (List.filter f l) (List.filter f l').
Proof.
  induction 1 as [|x l l' _ IH|x y l|l l' l'' _ IH1 _ IH2]; simpl.
  - constructor.
  - destruct (f x); [now constructor | assumption].
  - destruct (f x), (f y); try reflexivity. constructor.
  - now transitivity (List.filter f l').
Qed.

Lemma sorted_unique (l l' : list string) :
  Permutation l l' -> sorted l = sorted l'.
Proof.
  intros Hperm. unfold sorted.
  apply (Sorted_unique String.le); try apply Sorted_merge_sort; try apply _.
  now rewrite !merge_sort_Permutation.
Qed.

Variable input_dir : string.
Variable isfile : string -> bool.

(** X15: the images offered are the entries of the input directory that
    are files, each as often as it is listed, in ascending order. *)
Theorem INPUT_TYPES_image_choices (listdir : string -> res (list string))
    (names : list string) :
  listdir input_dir = Ok names ->
  exists inputs,
    INPUT_TYPES input_dir listdir isfile = Ok inputs /\
    Sorted String.le (image_choices inputs) /\
    Permutation (image_choices inputs)
      (List.filter (fun f => isfile (PosixPath.join_str input_dir [f])) names) /\
    (forall f,
       In f (image_choices inputs) <->
       In f names /\ isfile (PosixPath.join_str input_dir [f]) = true).
Proof.
  intros Hlist. unfold INPUT_TYPES, files. rewrite Hlist. simpl.
  eexists. split; [reflexivity|]. simpl.
  assert (Hperm : Permutation
            (sorted (List.filter
                       (fun f => isfile (PosixPath.join_str input_dir [f]))
                       names))
            (List.filter (fun f => isfile (PosixPath.join_str input_dir [f]))
               names))
    by apply merge_sort_Permutation.
  split; [apply Sorted_merge_sort; apply _|]. split; [exact Hperm|].
  intros f. split; intros Hin.
  - apply (Permutation_in _ Hperm) in Hin.
    apply filter_In in Hin. exact Hin.
  - apply (Permutation_in _ (Permutation_sym Hperm)).
    apply filter_In. exact Hin.
Qed.

(** X16: the images offered do not depend on the order in which the
    directory is listed. *)
Theorem INPUT_TYPES_listing_order (listdir1 listdir2 : string -> res (list string))
    (names1 names2 : list string) :
  listdir1 input_dir = Ok names1 ->
  listdir2 input_dir = Ok names2 ->
  Permutation names1 names2 ->
  INPUT_TYPES input_dir listdir1 isfile =
  INPUT_TYPES input_dir listdir2 isfile.
Proof.
  intros H1 H2 Hperm. unfold INPUT_TYPES, files. rewrite H1, H2. simpl.
  do 2 f_equal. apply sorted_unique. now apply filter_Permutation.
Qed.

End LoadImageListing.

(** ** ControlNet loader: the change key *)

Section ControlNetChange.

Import MfluxControlNetLoaderHooks.

Variable repr_float : spec_float -> string.

(** X9: for one model and boolean flags the key determines the path as
    printed and the flag: two keys are equal only if both are. *)
Theorem controlnet_IS_CHANGED_inj (i1 i2 : MfluxImagePipeline)
    (model : string) (b1 b2 : bool) :
  IS_CHANGED repr_float (Some i1) model (PyBool b1) =
  IS_CHANGED repr_float (Some i2) model (PyBool b2) ->
  MfluxControlNetLoader.message_path (image_path i1) =
  MfluxControlNetLoader.message_path (image_path i2) /\
  b1 = b2.
Proof.
  unfold IS_CHANGED. simpl. intros Heq. injection Heq as Heq.
  set (p1 := MfluxControlNetLoader.message_path (image_path i1)) in *.
  set (p2 := MfluxControlNetLoader.message_path (image_path i2)) in *.
  destruct b1, b2; simpl in Heq.
  - apply append_inj_suffix in Heq as [Heq _]; [|reflexivity].
    apply append_inj_suffix in Heq as [Heq _]; [|reflexivity]. now split.
  - exfalso.
    change "False" with (String.append "F" "alse") in Heq.
    rewrite <- append_assoc in Heq.
    apply append_inj_suffix in Heq as [_ Heq]; [|reflexivity].
    discriminate Heq.
  - exfalso.
    change "False" with (String.append "F" "alse") in Heq.
    rewrite <- append_assoc in Heq.
    apply append_inj_suffix in Heq as [_ Heq]; [|reflexivity].
    discriminate Heq.
  - apply append_inj_suffix in Heq as [Heq _]; [|reflexivity].
    apply append_inj_suffix in Heq as [Heq _]; [|reflexivity]. now split.
Qed.

(** X10: the key does not separate the path from the model: the end of a
    path moved to the front of the model selection gives the same key,
    whatever the strengths. *)
Theorem controlnet_IS_CHANGED_shift (a b model : string) (save : pyval)
    (strength1 strength2 : pyval) :
  IS_CHANGED repr_float
    (Some {| image_path := Some (String.append a b);
             strength := strength1 |}) model save =
  IS_CHANGED repr_float
    (Some {| image_path := Some a; strength := strength2 |})
    (String.append b model) save.
Proof.
  unfold IS_CHANGED. simpl. now rewrite !append_assoc.
Qed.

(** X11: the key is an [AttributeError] exactly when no image is supplied;
    a cleared reference has the key of a file named [None]. *)
Theorem controlnet_IS_CHANGED_no_image (image : option MfluxImagePipeline)
    (i : MfluxImagePipeline) (model : string) (save strength : pyval) :
  (IS_CHANGED repr_float image model save = Raise AttributeError <->
   image = None) /\
  IS_CHANGED repr_float (Some (ImagePipeline.clear_cache i)) model save =
  IS_CHANGED repr_float
    (Some {| image_path := Some "None"; strength := strength |}) model save.
Proof.
  split; [|reflexivity].
  destruct image as [r|]; simpl; split; intros H;
    solve [reflexivity | discriminate H].
Qed.

(** X17: the models offered by [INPUT_TYPES] are the ones the validation
    supports: each of them, the default one included, passes the validation
    with a boolean flag and no image. *)
Theorem controlnet_choices_validate
    (exists_annotated_filepath : string -> bool) (model : string) (b : bool) :
  In (model_default INPUT_TYPES) (model_choices INPUT_TYPES) /\
  (In model (model_choices INPUT_TYPES) <-> Contract.supported model) /\
  (In model (model_choices INPUT_TYPES) <->
   MfluxControlNetLoader.VALIDATE_INPUTS exists_annotated_filepath None
     model (PyBool b) = Ok VTrue).
Proof.
  split; [now left|]. split; [reflexivity|].
  unfold MfluxControlNetLoader.VALIDATE_INPUTS,
    MfluxControlNetLoader.validate_selection.
  pose proof (available_models_supported model) as Hsup.
  unfold Contract.supported in Hsup.
  change (model_choices INPUT_TYPES)
    with MfluxControlNetLoader.available_models.
  destruct (existsb (String.eqb model) MfluxControlNetLoader.available_models);
    simpl; split; intros H.
  - reflexivity.
  - now apply Hsup.
  - apply Hsup in H. discriminate H.
  - discriminate H.
Qed.

End ControlNetChange.

(** ** ControlNet loader: when it returns, and what the tensor holds *)

Section ControlNetLoadMore.

Import MfluxControlNetLoader.

Variable PILImage : Type.
Variable Image_open : string -> res PILImage.
Variable preprocess_canny : PILImage -> res PILImage.
Variable np_array : PILImage -> ndarray.



End ControlNetLoadMore.

(** X14: a byte is normalised into the unit interval, 0 to 0.0 and 255 to
    1.0, and a larger byte to a larger value: no two of the 256 pixel values
    fall together. *)
Theorem normalized_bytes (p q : Z) :
  Shape.byte p ->
  Shape.byte q ->
  Shape.normalized 0 = S754_zero false /\
  Shape.normalized 255 = Float.f32_of_Z 1 /\
  SFleb (S754_zero false) (Shape.normalized p) = true /\
  SFleb (Shape.normalized p) (Float.f32_of_Z 1) = true /\
  (p < q <-> SFltb (Shape.normalized p) (Shape.normalized q) = true).
Proof.
  intros Hp Hq.
  assert (Hall : forallb
            (fun p =>
               SFleb (S754_zero false) (Shape.normalized p) &&
               SFleb (Shape.normalized p) (Float.f32_of_Z 1) &&
               forallb
                 (fun q =>
                    Bool.eqb (Z.ltb p q)
                      (SFltb (Shape.normalized p) (Shape.normalized q)))
                 (Widget.upto 255))
            (Widget.upto 255) = true)
    by (vm_compute; reflexivity).
  pose proof (upto_forallb _ 255 Hall p Hp) as H.
  apply andb_prop in H as [H Hlt]. apply andb_prop in H as [H0 H1].
  pose proof (upto_forallb _ 255 Hlt q Hq) as Hpq. simpl in Hpq.
  apply Bool.eqb_prop in Hpq.
  split; [vm_compute; reflexivity|]. split; [vm_compute; reflexivity|].
  split; [exact H0|]. split; [exact H1|].
  rewrite <- Hpq. symmetry. apply Z.ltb_lt.
Qed.

(** ** Concrete runs of the further properties *)

Lemma demo_selections :
  LoraSpec.selections Demo.kwargs "a.safetensors" "None" "b.safetensors".
Proof. repeat split; reflexivity. Defined.

Lemma demo_selections_next :
  LoraSpec.selections Demo2.kwargs_next "None" "c.safetensors" "None".
Proof. repeat split; reflexivity. Defined.

Lemma demo_selections_absolute :
  LoraSpec.selections Demo2.kwargs_absolute
    "/tmp/evil.safetensors" "None" "None".
Proof. repeat split; reflexivity. Defined.

(** An upstream holder of two paths and one scale: the second path is
    dropped. *)
Lemma lora_stacker_truncates_witness :
  LoraSpec.selections Demo.kwargs "a.safetensors" "None" "b.safetensors" /\
  exists stack,
    MfluxLorasLoader.lora_stacker Demo.models_dir Demo2.misaligned
      Demo.kwargs = Ok stack /\
    lora_paths stack =
      ["/models/loras/a.safetensors"; "/models/loras/b.safetensors";
       "/models/loras/x.safetensors"] /\
    lora_scales stack =
      [PyFloat (Float.literal 8 1); Demo.half; Demo.half].
Proof.
  split; [exact demo_selections|].
  exact (lora_stacker_truncates Demo.models_dir Demo.kwargs Demo2.misaligned
           _ _ _ demo_selections).
Defined.

(** Two local entries and one upstream entry. *)
Lemma lora_stacker_length_witness :
  LoraSpec.selections Demo.kwargs "a.safetensors" "None" "b.safetensors" /\
  exists stack,
    MfluxLorasLoader.lora_stacker Demo.models_dir Demo.upstream
      Demo.kwargs = Ok stack /\
    length (lora_paths stack) = (2 + 1)%nat /\
    (length (lora_paths stack) <= 3 + 1)%nat.
Proof.
  split; [exact demo_selections|].
  exact (lora_stacker_length Demo.models_dir Demo.kwargs Demo.upstream
           _ _ _ demo_selections).
Defined.

(** A second loader behind the first one. *)
Lemma lora_stacker_chain_witness :
  LoraSpec.selections Demo.kwargs "a.safetensors" "None" "b.safetensors" /\
  LoraSpec.selections Demo2.kwargs_next "None" "c.safetensors" "None" /\
  LoraSpec.upstream_aligned Demo.upstream /\
  exists first,
    MfluxLorasLoader.lora_stacker Demo.models_dir Demo.upstream
      Demo.kwargs = Ok first /\
    MfluxLorasLoader.lora_stacker Demo.models_dir (LorasStack first)
      Demo2.kwargs_next =
    Ok {| lora_paths := ["/models/loras/c.safetensors";
                         "/models/loras/a.safetensors";
                         "/models/loras/b.safetensors";
                         "/models/loras/style.safetensors"];
          lora_scales := [Demo.half; PyFloat (Float.literal 8 1);
                          Demo.half; Demo.half] |}.
Proof.
  split; [exact demo_selections|]. split; [exact demo_selections_next|].
  split; [reflexivity|].
  exact (lora_stacker_chain Demo.models_dir Demo.kwargs Demo2.kwargs_next
           Demo.upstream _ _ _ _ _ _ demo_selections demo_selections_next
           eq_refl).
Defined.

(** A selection outside the models directory. *)
Lemma lora_stacker_absolute_selection_witness :
  LoraSpec.selections Demo2.kwargs_absolute
    "/tmp/evil.safetensors" "None" "None" /\
  PosixPath.startswith_sep "/tmp/evil.safetensors" = true /\
  exists stack,
    MfluxLorasLoader.lora_stacker Demo.models_dir LorasNone
      Demo2.kwargs_absolute = Ok stack /\
    hd_error (lora_paths stack) = Some "/tmp/evil.safetensors" /\
    hd_error (lora_scales stack) = Some Demo.full.
Proof.
  split; [exact demo_selections_absolute|]. split; [reflexivity|].
  exact (lora_stacker_absolute_selection Demo.models_dir
           Demo2.kwargs_absolute LorasNone _ _ _ demo_selections_absolute
           eq_refl).
Defined.

Lemma demo_models_dir_plain : Demo.models_dir <> "".
Proof. intros H. discriminate H. Defined.

(** Two relative selections under [/models]. *)
Lemma lora_stacker_relative_paths_witness :
  LoraSpec.selections Demo.kwargs "a.safetensors" "None" "b.safetensors" /\
  Demo.models_dir <> "" /\
  PosixPath.endswith_sep Demo.models_dir = false /\
  Forall (fun s => PosixPath.startswith_sep s = false)
    ["a.safetensors"; "None"; "b.safetensors"] /\
  exists stack,
    MfluxLorasLoader.lora_stacker Demo.models_dir LorasNone Demo.kwargs =
      Ok stack /\
    lora_paths stack =
      ["/models/loras/a.safetensors"; "/models/loras/b.safetensors"].
Proof.
  assert (Hrel : Forall (fun s => PosixPath.startswith_sep s = false)
                   ["a.safetensors"; "None"; "b.safetensors"])
    by (repeat constructor).
  split; [exact demo_selections|]. split; [exact demo_models_dir_plain|].
  split; [reflexivity|]. split; [exact Hrel|].
  exact (lora_stacker_relative_paths Demo.models_dir Demo.kwargs _ _ _
           demo_selections demo_models_dir_plain eq_refl Hrel).
Defined.

Lemma demo_grid_40 : 0 <= 40 <= 100.
Proof. split; intros H; discriminate H. Defined.

Lemma demo_grid_41 : 0 <= 41 <= 100.
Proof. split; intros H; discriminate H. Defined.

(** The strengths 0.40 and 0.41. *)
Lemma IS_CHANGED_grid_witness :
  0 <= 40 <= 100 /\
  0 <= 41 <= 100 /\
  MfluxLoadImage.IS_CHANGED Demo.hash Demo.float_of_str "cat.png"
    (PyFloat (Widget.hundredths 40)) = Ok (7, Float.literal 4 1) /\
  (MfluxLoadImage.IS_CHANGED Demo.hash Demo.float_of_str "cat.png"
     (PyFloat (Widget.hundredths 40)) =
   MfluxLoadImage.IS_CHANGED Demo.hash Demo.float_of_str "cat.png"
     (PyFloat (Widget.hundredths 41)) <-> 40 = 41).
Proof.
  split; [exact demo_grid_40|]. split; [exact demo_grid_41|].
  exact (IS_CHANGED_grid Demo.hash Demo.float_of_str "cat.png" 40 41
           demo_grid_40 demo_grid_41).
Defined.

(** The input directory of the small host: the folder is left out and the
    images are sorted. *)
Lemma INPUT_TYPES_image_choices_witness :
  Demo2.listdir Demo2.input_dir = Ok ["dog.png"; "masks"; "cat.png"] /\
  exists inputs,
    MfluxLoadImageInputs.INPUT_TYPES Demo2.input_dir Demo2.listdir
      Demo2.isfile = Ok inputs /\
    Sorted String.le (image_choices inputs) /\
    Permutation (image_choices inputs)
      (List.filter
         (fun f => Demo2.isfile (PosixPath.join_str Demo2.input_dir [f]))
         ["dog.png"; "masks"; "cat.png"]) /\
    (forall f,
       In f (image_choices inputs) <->
       In f ["dog.png"; "masks"; "cat.png"] /\
       Demo2.isfile (PosixPath.join_str Demo2.input_dir [f]) = true).
Proof.
  split; [reflexivity|].
  exact (INPUT_TYPES_image_choices Demo2.input_dir Demo2.isfile Demo2.listdir
           ["dog.png"; "masks"; "cat.png"] eq_refl).
Defined.

Lemma demo_listing_permuted :
  Permutation ["dog.png"; "masks"; "cat.png"] ["cat.png"; "masks"; "dog.png"].
Proof.
  apply perm_trans with ["masks"; "dog.png"; "cat.png"]; [apply perm_swap|].
  apply perm_trans with ["masks"; "cat.png"; "dog.png"];
    [apply perm_skip, perm_swap | apply perm_swap].
Defined.

(** The same directory listed in two orders. *)
Lemma INPUT_TYPES_listing_order_witness :
  Demo2.listdir Demo2.input_dir = Ok ["dog.png"; "masks"; "cat.png"] /\
  Demo2.listdir_other Demo2.input_dir = Ok ["cat.png"; "masks"; "dog.png"] /\
  Permutation ["dog.png"; "masks"; "cat.png"]
    ["cat.png"; "masks"; "dog.png"] /\
  MfluxLoadImageInputs.INPUT_TYPES Demo2.input_dir Demo2.listdir
    Demo2.isfile =
  MfluxLoadImageInputs.INPUT_TYPES Demo2.input_dir Demo2.listdir_other
    Demo2.isfile.
Proof.
  split; [reflexivity|]. split; [reflexivity|].
  split; [exact demo_listing_permuted|].
  exact (INPUT_TYPES_listing_order Demo2.input_dir Demo2.isfile Demo2.listdir
           Demo2.listdir_other _ _ eq_refl eq_refl demo_listing_permuted).
Defined.

(** Two equal keys of the same reference. *)
Lemma controlnet_IS_CHANGED_inj_witness :
  MfluxControlNetLoaderHooks.IS_CHANGED Demo2.repr_float
    (Some Demo.reference) "InstantX/FLUX.1-dev-Controlnet-Canny"
    (PyBool true) =
  MfluxControlNetLoaderHooks.IS_CHANGED Demo2.repr_float
    (Some Demo.reference) "InstantX/FLUX.1-dev-Controlnet-Canny"
    (PyBool true) /\
  MfluxControlNetLoader.message_path (image_path Demo.reference) =
  MfluxControlNetLoader.message_path (image_path Demo.reference) /\
  true = true.
Proof.
  split; [reflexivity|].
  exact (controlnet_IS_CHANGED_inj Demo2.repr_float Demo.reference
           Demo.reference "InstantX/FLUX.1-dev-Controlnet-Canny" true true
           eq_refl).
Defined.



Lemma demo_byte_127 : Shape.byte 127.
Proof. split; intros H; discriminate H. Defined.

Lemma demo_byte_128 : Shape.byte 128.
Proof. split; intros H; discriminate H. Defined.

(** The two middle bytes. *)
Lemma normalized_bytes_witness :
  Shape.byte 127 /\
  Shape.byte 128 /\
  Shape.normalized 0 = S754_zero false /\
  Shape.normalized 255 = Float.f32_of_Z 1 /\
  SFleb (S754_zero false) (Shape.normalized 127) = true /\
  SFleb (Shape.normalized 127) (Float.f32_of_Z 1) = true /\
  (127 < 128 <->
   SFltb (Shape.normalized 127) (Shape.normalized 128) = true).
Proof.
  split; [exact demo_byte_127|]. split; [exact demo_byte_128|].
  exact (normalized_bytes 127 128 demo_byte_127 demo_byte_128).
Defined.
